(** * Verification of the support-message classifier (src/utils/llmHelper.js)

    The development embeds the four functions of [llmHelper.js]
    ([categorizeMessage], [parseJsonResponse], [normalizeCategorizationResult]
    and [getMockCategorization]) together with the parts of the ECMAScript
    runtime they call: string primitives, the Number type and its conversions,
    [JSON.parse], property access and the regular expression of the reply
    parser.  JavaScript exceptions are made explicit with a small error
    monad. *)

From Stdlib Require Import ZArith QArith List Ascii String Bool Lia.
From Stdlib Require Import DecimalString.
Import ListNotations.
Close Scope Q_scope.

(* ================================================================== *)
(** * JavaScript strings *)
(* ================================================================== *)

Module JsString.
Local Open Scope N_scope.

(** A JavaScript string is a sequence of UTF-16 code units. *)
Definition code_unit := N.
Definition jsstring := list code_unit.

(** ASCII literals of the source, as code units. *)
Definition js (s : string) : jsstring :=
  map N_of_ascii (list_ascii_of_string s).

Definition in_range (lo hi c : code_unit) : bool :=
  ((lo <=? c) && (c <=? hi))%N.
Arguments in_range (lo hi c)%_N_scope.

(** WhiteSpace and LineTerminator code points: what [trim] strips, what
    [\s] matches in a regular expression and what StringToNumber skips. *)
Definition isWhiteSpace (c : code_unit) : bool :=
  (in_range 9 13 c || (c =? 32) || (c =? 160) || (c =? 5760)
   || in_range 8192 8202 c || (c =? 8232) || (c =? 8233) || (c =? 8239)
   || (c =? 8287) || (c =? 12288) || (c =? 65279))%N.

Fixpoint trimStart (s : jsstring) : jsstring :=
  match s with
  | [] => []
  | c :: r => if isWhiteSpace c then trimStart r else s
  end.

Fixpoint trimEnd (s : jsstring) : jsstring :=
  match s with
  | [] => []
  | c :: r =>
      match trimEnd r with
      | [] => if isWhiteSpace c then [] else [c]
      | r' => c :: r'
      end
  end.

(** [String.prototype.trim] *)
Definition trim (s : jsstring) : jsstring := trimEnd (trimStart s).

(** Truthiness of a string: the empty string is falsy. *)
Definition truthy (s : jsstring) : bool :=
  match s with [] => false | _ :: _ => true end.

Fixpoint eqb (s t : jsstring) : bool :=
  match s, t with
  | [], [] => true
  | a :: s', b :: t' => (a =? b)%N && eqb s' t'
  | _, _ => false
  end.

Fixpoint startsWith (s p : jsstring) {struct p} : bool :=
  match p, s with
  | [], _ => true
  | a :: p', b :: s' => (a =? b)%N && startsWith s' p'
  | _ :: _, [] => false
  end.

(** [String.prototype.includes]: [sub] occurs somewhere in [s]. *)
Fixpoint includes (s sub : jsstring) : bool :=
  startsWith s sub
  || match s with
     | [] => false
     | _ :: r => includes r sub
     end.

(** [String.prototype.toLowerCase].  The letters A-Z are mapped to a-z, and
    so are the only two other code points whose lower case contains an
    ASCII letter: U+212A KELVIN SIGN (to k) and U+0130 (to i followed by
    U+0307).  The remaining pairs of the Unicode table send a non-ASCII
    letter to a non-ASCII letter; they are not tabulated and those code
    units are left as they are, which changes nothing for a search of the
    lowered text for ASCII keywords, the only use the classifier makes of
    it. *)
Definition lower_unit (c : code_unit) : jsstring :=
  if in_range 65 90 c then [(c + 32)%N]
  else if (c =? 8490)%N then [107%N]
  else if (c =? 304)%N then [105%N; 775%N]
  else [c].

Definition toLowerCase (s : jsstring) : jsstring := flat_map lower_unit s.

(** [(s.match(/c/g) || []).length] for a one-character pattern [c]. *)
Definition count_unit (c : code_unit) (s : jsstring) : nat :=
  List.length (filter (N.eqb c) s).

Definition isDigit (c : code_unit) : bool := in_range 48 57 c.

Fixpoint takeDigits (s : jsstring) : jsstring * jsstring :=
  match s with
  | c :: r =>
      if isDigit c then let (d, r') := takeDigits r in (c :: d, r')
      else ([], s)
  | [] => ([], [])
  end.

End JsString.
Import JsString.

(* ================================================================== *)
(** * JavaScript numbers *)
(* ================================================================== *)

Module JsNumber.
Local Open Scope Z_scope.

(** A Number is an IEEE 754 binary64 value.  A finite one is kept as the
    rational it denotes; the conversions below give it in lowest terms.  The
    two zeros are identified: no
    operation used by the classifier ([Number.isInteger], [<], [>],
    conversion to a string) tells them apart. *)
Inductive number : Type :=
| NaN
| Infinity (negative : bool)
| Finite (q : Q).

Definition of_Z (z : Z) : number := Finite (inject_Z z).

Definition negate (x : number) : number :=
  match x with
  | NaN => NaN
  | Infinity b => Infinity (negb b)
  | Finite q => Finite (Qred (Qopp q))
  end.

Definition eqb (x y : number) : bool :=
  match x, y with
  | NaN, NaN => true
  | Infinity a, Infinity b => Bool.eqb a b
  | Finite p, Finite q => Qeq_bool p q
  | _, _ => false
  end.

(** [Number.isInteger] *)
Definition isInteger (x : number) : bool :=
  match x with
  | Finite q => (Qnum q mod Zpos (Qden q) =? 0)%Z
  | _ => false
  end.

(** [x < y] and [x > y] on Numbers; any comparison with NaN is false. *)
Definition lt (x y : number) : bool :=
  match x, y with
  | NaN, _ | _, NaN => false
  | Infinity a, Infinity b => a && negb b
  | Infinity a, Finite _ => a
  | Finite _, Infinity b => negb b
  | Finite p, Finite q => negb (Qle_bool q p)
  end.

Definition gt (x y : number) : bool := lt y x.

(** ** Rounding a real to binary64 (round to nearest, ties to even) *)

Definition round_half_even (n d : Z) : Z :=
  let q := (n / d)%Z in
  match (2 * (n mod d) ?= d)%Z with
  | Lt => q
  | Gt => (q + 1)%Z
  | Eq => if Z.even q then q else (q + 1)%Z
  end.

(** Numerator and denominator of [(n / d) / b ^ e]. *)
Definition scale (b n d e : Z) : Z * Z :=
  if (0 <=? e)%Z then (n, (d * b ^ e)%Z) else ((n * b ^ (- e))%Z, d).

(** [floor (log_b (n / d))] for [n, d > 0], from the lengths of [n] and
    [d] in base [b]: [len] is [Z.log2] for base 2. *)
Definition floor_log (b : Z) (len : Z -> Z) (n d : Z) : Z :=
  let e0 := (len n - len d)%Z in
  let (a, c) := scale b n d e0 in
  if (c <=? a)%Z then e0 else (e0 - 1)%Z.

Definition round_pos (n d : positive) : number :=
  let E := floor_log 2 Z.log2 (Zpos n) (Zpos d) in
  let e := Z.max (E - 52) (- 1074) in
  let (a, c) := scale 2 (Zpos n) (Zpos d) e in
  let m := round_half_even a c in
  if (0 <=? e)%Z then
    let v := (m * 2 ^ e)%Z in
    if (2 ^ 1024 <=? v)%Z then Infinity false else Finite (inject_Z v)
  else Finite (Qred (Qmake m (Z.to_pos (2 ^ (- e))))).

Definition round_binary64 (q : Q) : number :=
  match Qnum q with
  | Z0 => Finite (inject_Z 0)
  | Zpos n => round_pos n (Qden q)
  | Zneg n => negate (round_pos n (Qden q))
  end.

(** ** Number literals *)

Definition isHexDigit (c : code_unit) : bool :=
  isDigit c || in_range 97 102 c || in_range 65 70 c.

Definition hex_value (c : code_unit) : Z :=
  if isDigit c then Z.of_N (c - 48)%N
  else if in_range 97 102 c then Z.of_N (c - 87)%N
  else Z.of_N (c - 55)%N.

Definition radix_value (b : Z) (ds : jsstring) : Z :=
  fold_left (fun acc c => acc * b + hex_value c) ds 0.

(** The real [m * 10 ^ e]. *)
Definition decimal (m e : Z) : Q :=
  if 0 <=? e then inject_Z (m * 10 ^ e)
  else Qmake m (Z.to_pos (10 ^ (- e))).

(** Mathematical value of [intd . fracd e exp]. *)
Definition decimal_value (intd fracd : jsstring) (exp : Z) : Q :=
  decimal (radix_value 10 (intd ++ fracd)) (exp - Z.of_nat (List.length fracd)).

Definition takeSign (s : jsstring) : bool * jsstring :=
  match s with
  | c :: r =>
      if (c =? 45)%N then (true, r)
      else if (c =? 43)%N then (false, r)
      else (false, s)
  | [] => (false, [])
  end.

(** ExponentPart, optional: [e] or [E], an optional sign, digits; nothing
    may follow. *)
Definition parseExponent (s : jsstring) : option Z :=
  match s with
  | [] => Some 0
  | c :: r =>
      if ((c =? 101) || (c =? 69))%N then
        let (neg, r1) := takeSign r in
        let (ds, r2) := takeDigits r1 in
        match ds, r2 with
        | _ :: _, [] =>
            Some (if neg then - radix_value 10 ds else radix_value 10 ds)
        | _, _ => None
        end
      else None
  end.

(** Fraction, optional: a dot and its digits. *)
Definition takeFraction (s : jsstring) : option jsstring * jsstring :=
  match s with
  | c :: r =>
      if (c =? 46)%N then let (f, r') := takeDigits r in (Some f, r')
      else (None, s)
  | [] => (None, [])
  end.

(** StrUnsignedDecimalLiteral other than [Infinity]:
    [digits . digits? exp?], [. digits exp?] or [digits exp?]. *)
Definition parseUnsignedDecimal (s : jsstring) : option Q :=
  let (intd, r1) := takeDigits s in
  let (frac, r2) := takeFraction r1 in
  let fracd := match frac with Some f => f | None => [] end in
  if truthy intd || truthy fracd then
    match parseExponent r2 with
    | Some e => Some (decimal_value intd fracd e)
    | None => None
    end
  else None.

(** NonDecimalIntegerLiteral: [0x], [0o] or [0b] (either case) and at least
    one digit of that radix; no sign. *)
Definition parseNonDecimal (s : jsstring) : option Z :=
  match s with
  | z :: p :: (_ :: _) as ds =>
      if (z =? 48)%N then
        if ((p =? 120) || (p =? 88))%N then
          if forallb isHexDigit ds then Some (radix_value 16 ds) else None
        else if ((p =? 111) || (p =? 79))%N then
          if forallb (in_range 48 55) ds then Some (radix_value 8 ds) else None
        else if ((p =? 98) || (p =? 66))%N then
          if forallb (in_range 48 49) ds then Some (radix_value 2 ds) else None
        else None
      else None
  | _ => None
  end.

(** StringToNumber: the Number a string converts to. *)
Definition StringToNumber (s : jsstring) : number :=
  let t := trim s in
  match t with
  | [] => Finite (inject_Z 0)
  | _ :: _ =>
      match parseNonDecimal t with
      | Some z => round_binary64 (inject_Z z)
      | None =>
          let (neg, u) := takeSign t in
          if JsString.eqb u (js "Infinity") then Infinity neg
          else
            match parseUnsignedDecimal u with
            | Some q =>
                let x := round_binary64 q in if neg then negate x else x
            | None => NaN
            end
      end
  end.

(** A JSON number token: [-? int frac? exp?] with [int] either [0] or a
    digit sequence that does not start with [0], and a fraction of at least
    one digit. *)
Definition parseJsonNumber (s : jsstring) : option number :=
  let (neg, r0) :=
    match s with
    | c :: r => if (c =? 45)%N then (true, r) else (false, s)
    | [] => (false, [])
    end in
  let (intd, r1) := takeDigits r0 in
  let int_ok :=
    match intd with
    | [] => false
    | [_] => true
    | c :: _ :: _ => negb (c =? 48)%N
    end in
  let (frac, r2) := takeFraction r1 in
  let frac_ok := match frac with Some [] => false | _ => true end in
  let fracd := match frac with Some f => f | None => [] end in
  if int_ok && frac_ok then
    match parseExponent r2 with
    | Some e =>
        let x := round_binary64 (decimal_value intd fracd e) in
        Some (if neg then negate x else x)
    | None => None
    end
  else None.

(** ** Number::toString, radix 10 *)

Definition digitsOfZ (z : Z) : jsstring :=
  js (NilZero.string_of_uint (N.to_uint (Z.to_N z))).

Definition len10 (z : Z) : Z := Z.of_nat (List.length (digitsOfZ z)) - 1.

(** The shortest decimal that converts back to [x]: integers [s], [k] and
    [n] with [10 ^ (k - 1) <= s < 10 ^ k], [s * 10 ^ (n - k)] rounding to
    [x] and [k] as small as possible; of two such [s], the one nearest to
    [x].  [num / den] is the value of [x] and [n0] its number of integer
    digits.  Seventeen digits determine a binary64 value, so the search
    ends before the fuel does. *)
Fixpoint shortest (fuel : nat) (k : Z) (num den n0 : Z) (x : number)
  : Z * Z * Z :=
  match fuel with
  | O => (0, k, n0)
  | S fuel' =>
      let (a, c) := scale 10 num den (n0 - k) in
      let lo := a / c in
      let hi := lo + 1 in
      let ok_lo := eqb (round_binary64 (decimal lo (n0 - k))) x in
      let ok_hi := eqb (round_binary64 (decimal hi (n0 - k))) x in
      let nearest :=
        match 2 * a ?= (lo + hi) * c with
        | Lt => lo
        | Gt => hi
        | Eq => if Z.even lo then lo else hi
        end in
      let found :=
        if ok_lo && ok_hi then Some nearest
        else if ok_lo then Some lo
        else if ok_hi then Some hi
        else None in
      match found with
      | Some s =>
          if s =? 10 ^ k then (10 ^ (k - 1), k, n0 + 1) else (s, k, n0)
      | None => shortest fuel' (k + 1) num den n0 x
      end
  end.

Definition zeros (n : Z) : jsstring := repeat 48%N (Z.to_nat n).

Definition formatDecimal (s k n : Z) : jsstring :=
  let ds := digitsOfZ s in
  let exponent :=
    [101%N] ++ [if n - 1 <? 0 then 45%N else 43%N]
    ++ digitsOfZ (Z.abs (n - 1)) in
  if (k <=? n) && (n <=? 21) then ds ++ zeros (n - k)
  else if (0 <? n) && (n <=? 21) then
    firstn (Z.to_nat n) ds ++ [46%N] ++ skipn (Z.to_nat n) ds
  else if (-6 <? n) && (n <=? 0) then
    [48%N; 46%N] ++ zeros (- n) ++ ds
  else if k =? 1 then ds ++ exponent
  else firstn 1 ds ++ [46%N] ++ skipn 1 ds ++ exponent.

Definition NumberToString (x : number) : jsstring :=
  match x with
  | NaN => js "NaN"
  | Infinity b => (if b then [45%N] else []) ++ js "Infinity"
  | Finite q =>
      match Qnum q with
      | Z0 => js "0"
      | _ =>
          let num := Z.abs (Qnum q) in
          let den := Zpos (Qden q) in
          let n0 := floor_log 10 len10 num den + 1 in
          let '(s, k, n) :=
            shortest 17 1 num den n0 (Finite (Qred (Qmake num (Qden q)))) in
          (if Qnum q <? 0 then [45%N] else []) ++ formatDecimal s k n
      end
  end.

End JsNumber.
Import JsNumber.

(* ================================================================== *)
(** * Exceptions *)
(* ================================================================== *)

Inductive error : Type := TypeError | SyntaxError | ApiError.

(** The outcome of evaluating a JavaScript expression: a value, or a thrown
    exception. *)
Inductive completion (A : Type) : Type :=
| Normal (a : A)
| Throw (e : error).
Arguments Normal {A} a.
Arguments Throw {A} e.

Definition bind {A B} (c : completion A) (k : A -> completion B)
  : completion B :=
  match c with
  | Normal a => k a
  | Throw e => Throw e
  end.

Notation "x <- c ;; k" := (bind c (fun x => k))
  (at level 61, c at next level, right associativity).

(* ================================================================== *)
(** * JSON *)
(* ================================================================== *)

Module Json.
Local Open Scope N_scope.

(** What [JSON.parse] can return.  An object keeps its properties in the
    order of the text. *)
#[warnings="-register-all"]
Inductive value : Type :=
| JNull
| JBool (b : bool)
| JNum (n : number)
| JStr (s : jsstring)
| JArr (elements : list value)
| JObj (properties : list (jsstring * value)).

(** The value of own property [key]: of two properties with the same name
    the later one of the text has replaced the earlier. *)
Fixpoint lookup (key : jsstring) (props : list (jsstring * value))
  : option value :=
  match props with
  | [] => None
  | (k, v) :: rest =>
      match lookup key rest with
      | Some v' => Some v'
      | None => if JsString.eqb key k then Some v else None
      end
  end.

(** ** Tokens *)

Inductive token : Type :=
| TLBrace | TRBrace | TLBracket | TRBracket | TColon | TComma
| TNull | TBool (b : bool) | TNumber (n : number) | TString (s : jsstring).

Inductive mode : Type :=
| Idle
| InNumber (text : jsstring)
| InLiteral (text : jsstring)
| InString (text : jsstring)
| InEscape (text : jsstring)
| InUnicode (text : jsstring) (hex : jsstring).

(** JSON white space: space, tab, line feed, carriage return. *)
Definition isJsonSpace (c : code_unit) : bool :=
  (c =? 32) || (c =? 9) || (c =? 10) || (c =? 13).

Definition isNumberChar (c : code_unit) : bool :=
  isDigit c || (c =? 43) || (c =? 45) || (c =? 46) || (c =? 101) || (c =? 69).

Definition isLetter (c : code_unit) : bool := in_range 97 122 c.

Definition punctuation (c : code_unit) : option token :=
  if c =? 123 then Some TLBrace
  else if c =? 125 then Some TRBrace
  else if c =? 91 then Some TLBracket
  else if c =? 93 then Some TRBracket
  else if c =? 58 then Some TColon
  else if c =? 44 then Some TComma
  else None.

Definition literal (text : jsstring) : option token :=
  if JsString.eqb text (js "null") then Some TNull
  else if JsString.eqb text (js "true") then Some (TBool true)
  else if JsString.eqb text (js "false") then Some (TBool false)
  else None.

Definition escape (c : code_unit) : option code_unit :=
  if (c =? 34) || (c =? 92) || (c =? 47) then Some c
  else if c =? 98 then Some 8
  else if c =? 102 then Some 12
  else if c =? 110 then Some 10
  else if c =? 114 then Some 13
  else if c =? 116 then Some 9
  else None.

(** The lexer state: the tokens read so far, latest first, and the token
    being read. *)
Definition lexer : Type := list token * mode.

(** A character met between two tokens. *)
Definition start (toks : list token) (c : code_unit) : option lexer :=
  if isJsonSpace c then Some (toks, Idle)
  else
    match punctuation c with
    | Some t => Some (t :: toks, Idle)
    | None =>
        if c =? 34 then Some (toks, InString [])
        else if isDigit c || (c =? 45) then Some (toks, InNumber [c])
        else if isLetter c then Some (toks, InLiteral [c])
        else None
    end.

(** The token under way is complete. *)
Definition finish (st : lexer) : option (list token) :=
  let (toks, m) := st in
  match m with
  | Idle => Some toks
  | InNumber text =>
      match parseJsonNumber text with
      | Some n => Some (TNumber n :: toks)
      | None => None
      end
  | InLiteral text =>
      match literal text with
      | Some t => Some (t :: toks)
      | None => None
      end
  | InString _ | InEscape _ | InUnicode _ _ => None
  end.

Definition lexStep (st : lexer) (c : code_unit) : option lexer :=
  let (toks, m) := st in
  match m with
  | Idle => start toks c
  | InNumber text =>
      if isNumberChar c then Some (toks, InNumber (text ++ [c]))
      else match finish st with
           | Some toks' => start toks' c
           | None => None
           end
  | InLiteral text =>
      if isLetter c then Some (toks, InLiteral (text ++ [c]))
      else match finish st with
           | Some toks' => start toks' c
           | None => None
           end
  | InString text =>
      if c =? 34 then Some (TString text :: toks, Idle)
      else if c =? 92 then Some (toks, InEscape text)
      else if c <? 32 then None
      else Some (toks, InString (text ++ [c]))
  | InEscape text =>
      if c =? 117 then Some (toks, InUnicode text [])
      else match escape c with
           | Some u => Some (toks, InString (text ++ [u]))
           | None => None
           end
  | InUnicode text hex =>
      if isHexDigit c then
        match hex with
        | [_; _; _] =>
            Some (toks,
                  InString (text ++ [Z.to_N (radix_value 16 (hex ++ [c]))]))
        | _ => Some (toks, InUnicode text (hex ++ [c]))
        end
      else None
  end.

Fixpoint lexFrom (st : lexer) (s : jsstring) : option (list token) :=
  match s with
  | [] => finish st
  | c :: r =>
      match lexStep st c with
      | Some st' => lexFrom st' r
      | None => None
      end
  end.

(** The tokens of a text, in order. *)
Definition lex (s : jsstring) : option (list token) :=
  option_map (@rev token) (lexFrom ([], Idle) s).

(** ** Grammar *)

(** An array or object that is still open: what it holds so far, latest
    first, and for an object the name whose value is being read. *)
Inductive frame : Type :=
| FArr (elements : list value)
| FObj (properties : list (jsstring * value)) (key : option jsstring).

Inductive expect : Type :=
| EValue          (** at the start, after [:] and after [,] in an array *)
| EValueOrClose   (** after [[] *)
| EKeyOrClose     (** after [{] *)
| EKey            (** after [,] in an object *)
| EColon          (** after a property name *)
| ECommaOrClose   (** after an element or a property *)
| EEnd (v : value). (** the text's value is complete *)

Definition parser : Type := list frame * expect.

(** A value is complete: it goes into the innermost open container. *)
Definition deliver (stack : list frame) (v : value) : option parser :=
  match stack with
  | [] => Some ([], EEnd v)
  | FArr acc :: up => Some (FArr (v :: acc) :: up, ECommaOrClose)
  | FObj acc (Some k) :: up =>
      Some (FObj ((k, v) :: acc) None :: up, ECommaOrClose)
  | FObj _ None :: _ => None
  end.

Definition scalar (t : token) : option value :=
  match t with
  | TNull => Some JNull
  | TBool b => Some (JBool b)
  | TNumber n => Some (JNum n)
  | TString s => Some (JStr s)
  | _ => None
  end.

Definition beginValue (stack : list frame) (t : token) : option parser :=
  match t with
  | TLBracket => Some (FArr [] :: stack, EValueOrClose)
  | TLBrace => Some (FObj [] None :: stack, EKeyOrClose)
  | _ => match scalar t with
         | Some v => deliver stack v
         | None => None
         end
  end.

Definition close (stack : list frame) (t : token) : option parser :=
  match stack, t with
  | FArr acc :: up, TRBracket => deliver up (JArr (rev acc))
  | FObj acc None :: up, TRBrace => deliver up (JObj (rev acc))
  | _, _ => None
  end.

Definition key (stack : list frame) (t : token) : option parser :=
  match stack, t with
  | FObj acc None :: up, TString k => Some (FObj acc (Some k) :: up, EColon)
  | _, _ => None
  end.

Definition parseStep (st : parser) (t : token) : option parser :=
  let (stack, e) := st in
  match e with
  | EValue => beginValue stack t
  | EValueOrClose =>
      match t with
      | TRBracket => close stack t
      | _ => beginValue stack t
      end
  | EKeyOrClose =>
      match t with
      | TRBrace => close stack t
      | _ => key stack t
      end
  | EKey => key stack t
  | EColon =>
      match t with
      | TColon => Some (stack, EValue)
      | _ => None
      end
  | ECommaOrClose =>
      match t, stack with
      | TComma, FArr _ :: _ => Some (stack, EValue)
      | TComma, FObj _ None :: _ => Some (stack, EKey)
      | _, _ => close stack t
      end
  | EEnd _ => None
  end.

Fixpoint parseFrom (st : parser) (toks : list token) : option value :=
  match toks with
  | [] => match st with
          | ([], EEnd v) => Some v
          | _ => None
          end
  | t :: r =>
      match parseStep st t with
      | Some st' => parseFrom st' r
      | None => None
      end
  end.

(** [JSON.parse]: the value of a JSON text, or a SyntaxError. *)
Definition parse (s : jsstring) : completion value :=
  match lex s with
  | Some toks =>
      match parseFrom ([], EValue) toks with
      | Some v => Normal v
      | None => Throw SyntaxError
      end
  | None => Throw SyntaxError
  end.

End Json.
Import Json.

(* ================================================================== *)
(** * Property access and type conversion *)
(* ================================================================== *)

Module Runtime.

(** The result of reading a property: [None] is [undefined]. *)
Definition property : Type := option value.

(** [parsed.name] for one of the names the classifier reads ([category],
    [sentiment], [priority_score], [reasoning]), which the prototypes of
    the built-in types do not define: reading it from [null] throws a
    TypeError, an object answers with its own property, and a boolean, a
    number, a string or an array with [undefined]. *)
Definition Get (parsed : value) (name : jsstring) : completion property :=
  match parsed with
  | JNull => Throw TypeError
  | JObj props => Normal (lookup name props)
  | _ => Normal None
  end.

(** ToString of a value of [JSON.parse].  An array is joined with commas,
    [null] elements giving the empty string ([Array.prototype.toString]).
    An object goes through OrdinaryToPrimitive: its [toString] is
    [Object.prototype.toString], which answers [[object Object]], unless the
    text gave it a property of that name; such a property is not callable,
    [valueOf] returns no primitive either, and the conversion throws a
    TypeError.  The call stack has no bound here: an engine gives up with a
    RangeError on arrays nested some thousands deep, which this function
    converts. *)
Fixpoint ToString (v : value) : completion jsstring :=
  match v with
  | JNull => Normal (js "null")
  | JBool b => Normal (if b then js "true" else js "false")
  | JNum n => Normal (NumberToString n)
  | JStr s => Normal s
  | JArr elements =>
      (fix join (l : list value) : completion jsstring :=
         match l with
         | [] => Normal []
         | x :: r =>
             e <- match x with
                  | JNull => Normal []
                  | _ => ToString x
                  end ;;
             match r with
             | [] => Normal e
             | _ :: _ => t <- join r ;; Normal (e ++ js "," ++ t)
             end
         end) elements
  | JObj props =>
      match lookup (js "toString") props with
      | Some _ => Throw TypeError
      | None => Normal (js "[object Object]")
      end
  end.

(** [Number(x)]: ToNumber.  An array or an object is first converted to a
    primitive with hint number: [valueOf] returns the object itself, so the
    primitive is the string of [ToString]. *)
Definition ToNumber (x : property) : completion number :=
  match x with
  | None => Normal NaN
  | Some JNull => Normal (of_Z 0)
  | Some (JBool b) => Normal (of_Z (if b then 1 else 0))
  | Some (JNum n) => Normal n
  | Some (JStr s) => Normal (StringToNumber s)
  | Some (JArr _ as v) | Some (JObj _ as v) =>
      s <- ToString v ;; Normal (StringToNumber s)
  end.

End Runtime.
Import Runtime.

(* ================================================================== *)
(** * src/utils/llmHelper.js *)
(* ================================================================== *)

Record ClassificationResult : Type := {
  category : jsstring;
  sentiment : jsstring;
  priority_score : number;
  reasoning : jsstring
}.

(** The object literal [{ category, sentiment, priority_score, reasoning }],
    seen as a value that can be handed to [normalizeCategorizationResult]
    again. *)
Definition asValue (r : ClassificationResult) : value :=
  JObj [ (js "category", JStr (category r));
         (js "sentiment", JStr (sentiment r));
         (js "priority_score", JNum (priority_score r));
         (js "reasoning", JStr (reasoning r)) ].

(** ** The regular expression of [parseJsonResponse]

    [/```(?:json)?\s*([\s\S]*?)```/], matched the way a backtracking engine
    does: each quantifier tries its preferred choice first and gives way when
    the rest of the pattern fails.  Every function returns the text of the
    capture group. *)

Definition fence : jsstring := js "```".

(** [([\s\S]*?)```]: the shortest text that is followed by a fence. *)
Fixpoint lazyCapture (s : jsstring) : option jsstring :=
  if startsWith s fence then Some []
  else match s with
       | [] => None
       | c :: r => option_map (cons c) (lazyCapture r)
       end.

(** [\s*([\s\S]*?)```]: as much white space as possible first. *)
Fixpoint spaceCapture (s : jsstring) : option jsstring :=
  match s with
  | c :: r =>
      if isWhiteSpace c then
        match spaceCapture r with
        | Some m => Some m
        | None => lazyCapture s
        end
      else lazyCapture s
  | [] => lazyCapture s
  end.

(** [(?:json)?\s*([\s\S]*?)```]: with the tag first, without it otherwise. *)
Definition tagCapture (s : jsstring) : option jsstring :=
  if startsWith s (js "json") then
    match spaceCapture (skipn 4 s) with
    | Some m => Some m
    | None => spaceCapture s
    end
  else spaceCapture s.

(** The whole pattern, at the start of [s]. *)
Definition matchHere (s : jsstring) : option jsstring :=
  if startsWith s fence then tagCapture (skipn 3 s) else None.

(** [content.match(...)]: the leftmost match; [Some m] stands for the match
    array, [m] being its element 1, and [None] for [null]. *)
Fixpoint codeBlockMatch (content : jsstring) : option jsstring :=
  match matchHere content with
  | Some m => Some m
  | None =>
      match content with
      | [] => None
      | _ :: r => codeBlockMatch r
      end
  end.

(** ** parseJsonResponse *)

(** The text handed to [JSON.parse]. *)
Definition jsonStr (content : jsstring) : jsstring :=
  match codeBlockMatch content with
  | Some m => trim m
  | None => content
  end.

Definition parseJsonResponse (content : jsstring) : value :=
  match parse (jsonStr content) with
  | Normal v => v
  | Throw _ => JObj []
  end.

(** ** normalizeCategorizationResult *)

(** [typeof x === 'string' && x.trim() ? x.trim() : otherwise] *)
Definition trimmedOr (x : property) (otherwise : jsstring) : jsstring :=
  match x with
  | Some (JStr s) => if truthy (trim s) then trim s else otherwise
  | _ => otherwise
  end.

(** [x === 'Angry'] *)
Definition isAngryLiteral (x : property) : bool :=
  match x with
  | Some (JStr s) => JsString.eqb s (js "Angry")
  | _ => false
  end.

Definition synthesizedReasoning (category sentiment : jsstring)
  (priority_score : number) : jsstring :=
  js "Category: " ++ category ++ js ", Sentiment: " ++ sentiment
  ++ js ", Priority: " ++ NumberToString priority_score ++ js ".".

Definition normalizeCategorizationResult (parsed : value)
  : completion ClassificationResult :=
  c <- Get parsed (js "category") ;;
  let category := trimmedOr c (js "Unknown") in
  s <- Get parsed (js "sentiment") ;;
  let sentiment := if isAngryLiteral s then js "Angry" else js "Neutral" in
  p <- Get parsed (js "priority_score") ;;
  n <- ToNumber p ;;
  let priority_score :=
    if negb (isInteger n) || lt n (of_Z 1) || gt n (of_Z 5) then of_Z 3
    else n in
  r <- Get parsed (js "reasoning") ;;
  let reasoning :=
    trimmedOr r (synthesizedReasoning category sentiment priority_score) in
  Normal {| category := category;
            sentiment := sentiment;
            priority_score := priority_score;
            reasoning := reasoning |}.

(** ** getMockCategorization *)

Definition angryIndicators : list jsstring :=
  map js [ "angry"; "furious"; "outraged"; "unacceptable"; "worst";
           "terrible"; "horrible"; "!!!"; "urgent"; "asap";
           "immediately" ]%string.

Module reasoningVariations.
Definition billing : jsstring :=
  js "Based on keywords related to payments and billing, this appears to be a billing-related inquiry.".
Definition technical : jsstring :=
  js "This message describes technical difficulties or system errors that may require engineering review.".
Definition feature : jsstring :=
  js "The customer is requesting enhancements or new functionality.".
Definition inquiry : jsstring :=
  js "This appears to be a general question about the product or service.".
Definition positive : jsstring :=
  js "The customer is expressing satisfaction or gratitude.".
Definition ambiguous : jsstring :=
  js "The message doesn't contain clear indicators for automatic categorization. Manual review recommended.".
End reasoningVariations.

(** [words.some(w => lowerMessage.includes(w))], and the same for a chain of
    [||] over [lowerMessage.includes(...)]. *)
Definition includesAny (lowerMessage : jsstring) (words : list string)
  : bool :=
  existsb (fun w => includes lowerMessage (js w)) words.

Definition isAngry (message : jsstring) : bool :=
  existsb (fun w => includes (toLowerCase message) w) angryIndicators
  || (2 <=? count_unit 33%N message)%nat.

Definition billingWords : list string :=
  [ "bill"; "payment"; "charge"; "invoice"; "subscription"; "refund" ]%string.

Definition technicalWords : list string :=
  [ "bug"; "error"; "broken"; "not working"; "crash"; "down"; "server";
    "loading"; "issue" ]%string.

Definition featureWords : list string :=
  [ "feature"; "improve"; "suggestion"; "would like to see";
    "enhancement" ]%string.

Definition gratitudeWords : list string :=
  [ "thank"; "thanks"; "appreciate" ]%string.

Definition inquiryWords : list string :=
  [ "how"; "what"; "?"; "can i"; "is there" ]%string.

Definition getMockCategorization (message : jsstring)
  : ClassificationResult :=
  let lowerMessage := toLowerCase message in
  let isAngry := isAngry message in
  let sentiment := if isAngry then js "Angry" else js "Neutral" in
  let basePriority := if isAngry then 4%Z else 2%Z in
  if includesAny lowerMessage billingWords then
    {| category := js "Billing Issue";
       sentiment := sentiment;
       priority_score := of_Z (Z.min 5 (basePriority + 1));
       reasoning := reasoningVariations.billing |}
  else if includesAny lowerMessage technicalWords then
    {| category := js "Technical Problem";
       sentiment := sentiment;
       priority_score :=
         of_Z (if isAngry then 5 else Z.min 5 (basePriority + 2));
       reasoning := reasoningVariations.technical |}
  else if includesAny lowerMessage featureWords then
    {| category := js "Feature Request";
       sentiment := sentiment;
       priority_score := of_Z basePriority;
       reasoning := reasoningVariations.feature |}
  else if includesAny lowerMessage gratitudeWords
          && negb (includes lowerMessage (js "but"))
          && negb (includes lowerMessage (js "however")) then
    {| category := js "General Inquiry";
       sentiment := js "Neutral";
       priority_score := of_Z 1;
       reasoning := reasoningVariations.positive |}
  else if includesAny lowerMessage inquiryWords then
    {| category := js "General Inquiry";
       sentiment := sentiment;
       priority_score := of_Z basePriority;
       reasoning := reasoningVariations.inquiry |}
  else
    {| category := js "General Inquiry";
       sentiment := sentiment;
       priority_score := of_Z basePriority;
       reasoning := reasoningVariations.ambiguous |}.

(** ** categorizeMessage *)

(** How [await groq.chat.completions.create(...)] ends: the promise is
    fulfilled with a response whose [choices[0].message.content] is the
    reply text; or with a response that has no first choice or no text in
    it, so that reading [choices[0].message.content.trim()] throws a
    TypeError; or it is rejected, with an error object as the SDK does (the
    [catch] branch reads [error.message]). *)
Inductive RemoteOutcome : Type :=
| Fulfilled (content : jsstring)
| FulfilledWithoutText
| Rejected.

(** The body of the [try] block. *)
Definition remoteAttempt (outcome : RemoteOutcome)
  : completion ClassificationResult :=
  match outcome with
  | Rejected => Throw ApiError
  | FulfilledWithoutText => Throw TypeError
  | Fulfilled reply =>
      let content := trim reply in
      let parsed := parseJsonResponse content in
      normalizeCategorizationResult parsed
  end.

(** [try { ... } catch (error) { return getMockCategorization(message) }] *)
Definition categorizeMessage (message : jsstring) (outcome : RemoteOutcome)
  : ClassificationResult :=
  match remoteAttempt outcome with
  | Normal result => result
  | Throw _ => getMockCategorization message
  end.

(** The five values the prompt asks the model to choose [category] from. *)
Definition canonicalCategories : list jsstring :=
  map js [ "Billing Issue"; "Technical Problem"; "Feature Request";
           "General Inquiry"; "Unknown" ]%string.

(* ================================================================== *)
(** * Vocabulary of the specification *)
(* ================================================================== *)

(** [x] is an integer of the interval [[lo, hi]]. *)
Definition integerBetween (lo hi : Z) (x : number) : Prop :=
  exists k : Z, (lo <= k <= hi)%Z /\
    match x with
    | Finite q => Qeq q (inject_Z k)
    | _ => False
    end.

(** The [catch] branch ran: the heuristic produced the result. *)
Definition fallbackTaken (outcome : RemoteOutcome) : bool :=
  match remoteAttempt outcome with
  | Normal _ => false
  | Throw _ => true
  end.

(** What normalization makes of an object without any usable field. *)
Definition defaults : ClassificationResult :=
  {| category := js "Unknown";
     sentiment := js "Neutral";
     priority_score := of_Z 3;
     reasoning := js "Category: Unknown, Sentiment: Neutral, Priority: 3." |}.

(** A JSON string literal without escapes, and a one-property object
    text. *)
Definition quoted (s : jsstring) : jsstring := [34%N] ++ s ++ [34%N].

(** [j] in a fenced code block tagged [json]. *)
Definition fenced (j : jsstring) : jsstring :=
  fence ++ js "json" ++ [10%N] ++ j ++ [10%N] ++ fence.

(** The content of a fenced block without its optional tag. *)
Definition untagged (body : jsstring) : jsstring :=
  if startsWith body (js "json") then skipn 4 body else body.

(** The value of property [name] of [parsed] when it is a string. *)
Definition stringField (parsed : value) (name : jsstring) : option jsstring :=
  match Get parsed name with
  | Normal (Some (JStr s)) => Some s
  | _ => None
  end.

(** [Number(parsed.priority_score)] *)
Definition priorityNumber (parsed : value) : completion number :=
  p <- Get parsed (js "priority_score") ;; ToNumber p.


(** A string that is empty or starts with something other than white
    space. *)
Definition leftTrimmed (s : jsstring) : Prop :=
  match s with
  | [] => True
  | c :: _ => isWhiteSpace c = false
  end.

(* ================================================================== *)
(** * AnalyzePage: the urgency shown for a result *)
(* ================================================================== *)

(** [x >= y] on Numbers; false as soon as one side is NaN. *)
Definition ge (x y : number) : bool :=
  match x, y with
  | NaN, _ | _, NaN => false
  | _, _ => negb (lt x y)
  end.

(** [x === y] on Numbers; NaN is equal to nothing. *)
Definition strictEquals (x y : number) : bool :=
  match x, y with
  | NaN, _ | _, NaN => false
  | _, _ => JsNumber.eqb x y
  end.

(** [handleAnalyze]:
    [priority_score >= 4 ? 'High' : priority_score === 3 ? 'Medium' : 'Low'] *)
Definition urgency (priority_score : number) : jsstring :=
  if ge priority_score (of_Z 4) then js "High"
  else if strictEquals priority_score (of_Z 3) then js "Medium"
  else js "Low".

(* ================================================================== *)
(** * Further vocabulary *)
(* ================================================================== *)

(** The letters A-Z of a text sent to a-z, every other code unit kept. *)
Definition asciiLower (s : jsstring) : jsstring :=
  map (fun c => if in_range 65 90 c then (c + 32)%N else c) s.

(** The words of [angryIndicators], the three exclamation marks left out. *)
Definition angryWords : list jsstring :=
  map js [ "angry"; "furious"; "outraged"; "unacceptable"; "worst";
           "terrible"; "horrible"; "urgent"; "asap"; "immediately" ]%string.

(** A character that can begin a JSON value ([{], [[], a quote, a digit or
    minus sign, or the first letter of [true], [false], [null]) or be
    skipped or read as punctuation before one. *)
Definition canBeginJson (c : code_unit) : bool :=
  match start [] c with
  | Some (_, InLiteral _) =>
      ((c =? 116) || (c =? 102) || (c =? 110))%N
  | Some _ => true
  | None => false
  end.

(* ================================================================== *)
(** * The runtime model on known values *)
(* ================================================================== *)

Section Runtime_examples.

Example trim_example : trim (js "  Billing Issue ") = js "Billing Issue".
Proof. reflexivity. Qed.

Example toLowerCase_example :
  toLowerCase (js "My BILL, ASAP!") = js "my bill, asap!".
Proof. reflexivity. Qed.

(** [0.1] is the binary64 value 3602879701896397 / 2^55. *)
Example round_tenth :
  round_binary64 (Qmake 1 10) = Finite (Qmake 3602879701896397 (2 ^ 55)).
Proof. vm_compute. reflexivity. Qed.

Example StringToNumber_examples :
  StringToNumber (js "4") = of_Z 4
  /\ StringToNumber (js " 5.0 ") = of_Z 5
  /\ StringToNumber (js "0x1F") = of_Z 31
  /\ StringToNumber [] = of_Z 0
  /\ StringToNumber (js "high") = NaN
  /\ StringToNumber (js "1,2") = NaN
  /\ StringToNumber (js "-Infinity") = Infinity true
  /\ StringToNumber (js "1e400") = Infinity false
  /\ StringToNumber (js "4.5") = Finite (Qmake 9 2)
  /\ StringToNumber (js "4.0000000000000000001") = of_Z 4.
Proof. repeat split; vm_compute; reflexivity. Qed.

Example NumberToString_examples :
  NumberToString (of_Z 3) = js "3"
  /\ NumberToString (Finite (Qmake 9 2)) = js "4.5"
  /\ NumberToString (StringToNumber (js "0.1")) = js "0.1"
  /\ NumberToString (StringToNumber (js "1e21")) = js "1e+21"
  /\ NumberToString (StringToNumber (js "123456789012345678901"))
     = js "123456789012345680000"
  /\ NumberToString (StringToNumber (js "0.0000001")) = js "1e-7"
  /\ NumberToString (StringToNumber (js "-2.50")) = js "-2.5".
Proof. repeat split; vm_compute; reflexivity. Qed.

Example parse_examples :
  parse (js "null") = Normal JNull
  /\ parse (js " [1, true, [], {}] ")
     = Normal (JArr [JNum (of_Z 1); JBool true; JArr []; JObj []])
  /\ parse (js "{" ++ quoted (js "a") ++ js ":1," ++ quoted (js "a")
            ++ js ":2}")
     = Normal (JObj [(js "a", JNum (of_Z 1)); (js "a", JNum (of_Z 2))])
  /\ lookup (js "a") [(js "a", JNum (of_Z 1)); (js "a", JNum (of_Z 2))]
     = Some (JNum (of_Z 2))
  /\ parse (quoted (js "a\u0041\n")) = Normal (JStr [97; 65; 10]%N)
  /\ parse (js "[1,]") = Throw SyntaxError
  /\ parse (js "01") = Throw SyntaxError
  /\ parse (js "{a: 1}") = Throw SyntaxError
  /\ parse (js "1 2") = Throw SyntaxError
  /\ parse (js "Sorry, I cannot help.") = Throw SyntaxError
  /\ parse [] = Throw SyntaxError.
Proof. repeat split; vm_compute; reflexivity. Qed.

Example ToNumber_examples :
  ToNumber None = Normal NaN
  /\ ToNumber (Some JNull) = Normal (of_Z 0)
  /\ ToNumber (Some (JBool true)) = Normal (of_Z 1)
  /\ ToNumber (Some (JArr [])) = Normal (of_Z 0)
  /\ ToNumber (Some (JArr [JArr [JNum (of_Z 5)]])) = Normal (of_Z 5)
  /\ ToNumber (Some (JArr [JNum (of_Z 1); JNum (of_Z 2)])) = Normal NaN
  /\ ToNumber (Some (JObj [])) = Normal NaN
  /\ ToNumber (Some (JObj [(js "valueOf", JNum (of_Z 4))])) = Normal NaN
  /\ ToNumber (Some (JObj [(js "toString", JNum (of_Z 4))]))
     = Throw TypeError.
Proof. repeat split; vm_compute; reflexivity. Qed.

Example codeBlockMatch_examples :
  codeBlockMatch (js "```json {} ```") = Some (js "{} ")
  /\ codeBlockMatch (js "``` {} ```") = Some (js "{} ")
  /\ codeBlockMatch (js "```jsonl```") = Some (js "l")
  /\ codeBlockMatch (js "a ```` b ``` c") = Some (js "` b ")
  /\ codeBlockMatch (js "``` {}") = None
  /\ codeBlockMatch (js "`````") = None
  /\ codeBlockMatch (js "{}") = None.
Proof. repeat split; vm_compute; reflexivity. Qed.

End Runtime_examples.

(* ================================================================== *)
(** * Facts about strings *)
(* ================================================================== *)

Section Trim.

Lemma trimStart_leftTrimmed s : leftTrimmed (trimStart s).
Proof.
  induction s as [|c r IH]; simpl; [exact I|].
  destruct (isWhiteSpace c) eqn:E; [exact IH | exact E].
Qed.

Lemma trimStart_fixed s : leftTrimmed s -> trimStart s = s.
Proof.
  destruct s as [|c r]; simpl; [reflexivity|].
  intros ->. reflexivity.
Qed.

Lemma trimEnd_leftTrimmed s : leftTrimmed s -> leftTrimmed (trimEnd s).
Proof.
  destruct s as [|c r]; simpl; [trivial|].
  intros E. destruct (trimEnd r); [rewrite E|]; exact E.
Qed.

Lemma trimEnd_idempotent s : trimEnd (trimEnd s) = trimEnd s.
Proof.
  induction s as [|c r IH]; simpl; [reflexivity|].
  destruct (trimEnd r) as [|d r'] eqn:E.
  - destruct (isWhiteSpace c) eqn:W; simpl; [reflexivity|].
    rewrite W. reflexivity.
  - change (trimEnd (c :: d :: r')) with
      (match trimEnd (d :: r') with
       | [] => if isWhiteSpace c then [] else [c]
       | x => c :: x
       end).
    rewrite IH. reflexivity.
Qed.

Lemma trim_idempotent s : trim (trim s) = trim s.
Proof.
  unfold trim.
  rewrite (trimStart_fixed (trimEnd (trimStart s))).
  - apply trimEnd_idempotent.
  - apply trimEnd_leftTrimmed, trimStart_leftTrimmed.
Qed.

Lemma trimEnd_snoc_space s w :
  isWhiteSpace w = true -> trimEnd (s ++ [w]) = trimEnd s.
Proof.
  intros W. induction s as [|c r IH]; simpl.
  - rewrite W. reflexivity.
  - rewrite IH. reflexivity.
Qed.

Lemma trimEnd_snoc s d :
  isWhiteSpace d = false -> trimEnd (s ++ [d]) = s ++ [d].
Proof.
  intros W. induction s as [|c r IH]; simpl.
  - rewrite W. reflexivity.
  - rewrite IH. destruct (r ++ [d]) eqn:E; [|reflexivity].
    destruct r; discriminate.
Qed.

(** White space on either side of a text does not survive [trim]. *)
Lemma trim_padded s v w :
  isWhiteSpace v = true -> isWhiteSpace w = true ->
  trim (v :: s ++ [w]) = trim s.
Proof.
  intros V W. unfold trim. simpl. rewrite V.
  induction s as [|c r IH]; simpl.
  - rewrite W. reflexivity.
  - destruct (isWhiteSpace c) eqn:C; [exact IH|].
    change (c :: r ++ [w]) with ((c :: r) ++ [w]).
    apply trimEnd_snoc_space, W.
Qed.

Lemma trim_trimStart s : trim (trimStart s) = trim s.
Proof.
  unfold trim. rewrite (trimStart_fixed (trimStart s)); [reflexivity|].
  apply trimStart_leftTrimmed.
Qed.

(** A text between two characters that are not white space is its own
    trim. *)
Lemma trim_enclosed c s d :
  isWhiteSpace c = false -> isWhiteSpace d = false ->
  trim (c :: s ++ [d]) = c :: s ++ [d].
Proof.
  intros C D. unfold trim. simpl trimStart. rewrite C.
  change (c :: s ++ [d]) with ((c :: s) ++ [d]).
  apply trimEnd_snoc, D.
Qed.

Lemma eqb_eq s t : JsString.eqb s t = true <-> s = t.
Proof.
  revert t. induction s as [|a s IH]; intros [|b t]; simpl;
    try (split; [discriminate | discriminate]); [tauto|].
  rewrite andb_true_iff, N.eqb_eq, IH.
  split; [intros [-> ->]; reflexivity | intros H; inversion H; auto].
Qed.

Lemma truthy_nonempty s : truthy s = true <-> s <> [].
Proof.
  destruct s; simpl; split; try discriminate; try reflexivity.
  intros H; contradiction H; reflexivity.
Qed.

End Trim.

(* ================================================================== *)
(** * Facts about numbers *)
(* ================================================================== *)

Section Numbers.
Local Open Scope Z_scope.

Lemma isInteger_value q :
  isInteger (Finite q) = true ->
  Qeq q (inject_Z (Qnum q / Zpos (Qden q))).
Proof.
  destruct q as [a b]. unfold isInteger, Qeq. simpl.
  intros H. apply Z.eqb_eq in H.
  rewrite Z.mul_1_r.
  rewrite (Z.div_mod a (Zpos b)) at 1 by discriminate.
  rewrite H. ring.
Qed.

Lemma integerBetween_of_Z lo hi k :
  lo <= k <= hi -> integerBetween lo hi (of_Z k).
Proof.
  intros H. exists k. split; [exact H | reflexivity].
Qed.

(** The three tests of [normalizeCategorizationResult] say exactly that
    the number is an integer from 1 to 5. *)
Lemma range_test_spec n :
  negb (isInteger n) || lt n (of_Z 1) || gt n (of_Z 5) = false
  <-> integerBetween 1 5 n.
Proof.
  rewrite !orb_false_iff, negb_false_iff. split.
  - intros [[I L] G]. destruct n as [| |q]; try discriminate.
    exists (Qnum q / Zpos (Qden q)). split; [|apply isInteger_value, I].
    pose proof (isInteger_value q I) as E.
    unfold gt, lt, of_Z in *.
    apply negb_false_iff, Qle_bool_iff in L, G.
    rewrite E in L, G.
    rewrite <- Zle_Qle in L, G. lia.
  - intros [k [[K1 K5] E]]. destruct n as [| |q]; try contradiction.
    unfold gt, lt, of_Z.
    rewrite !negb_false_iff. repeat split.
    + destruct q as [a b]. unfold Qeq in E. simpl in E.
      unfold isInteger. simpl. apply Z.eqb_eq.
      rewrite Z.mul_1_r in E. subst a. apply Z.mod_mul. discriminate.
    + apply Qle_bool_iff. rewrite E, <- Zle_Qle. exact K1.
    + apply Qle_bool_iff. rewrite E, <- Zle_Qle. exact K5.
Qed.

Lemma range_test_of_Z k :
  1 <= k <= 5 ->
  negb (isInteger (of_Z k)) || lt (of_Z k) (of_Z 1) || gt (of_Z k) (of_Z 5)
  = false.
Proof. intros H. apply range_test_spec, integerBetween_of_Z, H. Qed.

End Numbers.

(* ================================================================== *)
(** * Facts about normalization *)
(* ================================================================== *)

Section Normalization.

Lemma bind_Normal {A B} (c : completion A) (k : A -> completion B) b :
  bind c k = Normal b -> exists a, c = Normal a /\ k a = Normal b.
Proof. destruct c as [a|e]; simpl; [eauto | discriminate]. Qed.

(** Reading a property throws on [null] only, whatever the name. *)
Lemma Get_Normal parsed name :
  parsed <> JNull -> exists x, Get parsed name = Normal x.
Proof. destruct parsed; simpl; eauto. intros H; contradiction H; reflexivity. Qed.

Lemma Get_null_iff parsed name e :
  Get parsed name = Throw e <-> parsed = JNull /\ e = TypeError.
Proof.
  destruct parsed; simpl; split; try discriminate;
    try (intros [H _]; discriminate H).
  - intros H; inversion H; auto.
  - intros [_ H]; rewrite H; reflexivity.
Qed.

(** A primitive converts to a number without an exception. *)
Lemma ToNumber_primitive (x : property) :
  match x with
  | Some (JArr _) | Some (JObj _) => True
  | _ => exists n, ToNumber x = Normal n
  end.
Proof. destruct x as [[]|]; simpl; eauto. Qed.

Lemma trimmedOr_cases x otherwise :
  (exists s, x = Some (JStr s) /\ trim s <> [] /\
             trimmedOr x otherwise = trim s)
  \/ ((forall s, x = Some (JStr s) -> trim s = []) /\
      trimmedOr x otherwise = otherwise).
Proof.
  destruct x as [[| | |s| |]|]; simpl;
    try (right; split; [intros s' H; discriminate H | reflexivity]).
  destruct (trim s) eqn:E; simpl.
  - right. split; [|reflexivity]. intros s' H. inversion H; subst. exact E.
  - left. exists s. rewrite E.
    split; [reflexivity | split; [discriminate | reflexivity]].
Qed.

(** [trimmedOr] yields a non-empty string that is its own trim as soon as
    the alternative is one. *)
Lemma trimmedOr_trimmed x otherwise :
  trim otherwise = otherwise -> otherwise <> [] ->
  trim (trimmedOr x otherwise) = trimmedOr x otherwise
  /\ trimmedOr x otherwise <> [].
Proof.
  intros T N.
  destruct (trimmedOr_cases x otherwise) as [(s & _ & Ns & ->)|[_ ->]].
  - split; [apply trim_idempotent | exact Ns].
  - split; [exact T | exact N].
Qed.

Lemma synthesized_shape c s p :
  exists body, synthesizedReasoning c s p = 67%N :: body ++ [46%N].
Proof.
  unfold synthesizedReasoning.
  exists (List.tl (js "Category: ") ++ c ++ js ", Sentiment: " ++ s
          ++ js ", Priority: " ++ NumberToString p).
  change (js ".") with [46%N].
  change (js "Category: ") with (67%N :: List.tl (js "Category: ")).
  rewrite <- !app_assoc. reflexivity.
Qed.

Lemma synthesized_trimmed c s p :
  trim (synthesizedReasoning c s p) = synthesizedReasoning c s p
  /\ synthesizedReasoning c s p <> [].
Proof.
  destruct (synthesized_shape c s p) as [body ->].
  split; [apply trim_enclosed; reflexivity | discriminate].
Qed.

(** The result of [normalizeCategorizationResult], once the properties have
    been read and the priority converted. *)
Lemma normalize_Normal parsed r :
  normalizeCategorizationResult parsed = Normal r ->
  exists c s p n rs,
    Get parsed (js "category") = Normal c
    /\ Get parsed (js "sentiment") = Normal s
    /\ Get parsed (js "priority_score") = Normal p
    /\ ToNumber p = Normal n
    /\ Get parsed (js "reasoning") = Normal rs
    /\ category r = trimmedOr c (js "Unknown")
    /\ sentiment r = (if isAngryLiteral s then js "Angry" else js "Neutral")
    /\ priority_score r =
         (if negb (isInteger n) || lt n (of_Z 1) || gt n (of_Z 5)
          then of_Z 3 else n)
    /\ reasoning r =
         trimmedOr rs (synthesizedReasoning (category r) (sentiment r)
                         (priority_score r)).
Proof.
  unfold normalizeCategorizationResult. intros H.
  apply bind_Normal in H as (c & Hc & H).
  apply bind_Normal in H as (s & Hs & H).
  apply bind_Normal in H as (p & Hp & H).
  apply bind_Normal in H as (n & Hn & H).
  apply bind_Normal in H as (rs & Hr & H).
  inversion H; subst r; clear H. simpl.
  exists c, s, p, n, rs. repeat split; assumption.
Qed.

(** Normalization throws in two cases only: [parsed] is [null], or its
    [priority_score] does not convert to a number. *)
Lemma normalize_total parsed n :
  parsed <> JNull -> priorityNumber parsed = Normal n ->
  exists r, normalizeCategorizationResult parsed = Normal r.
Proof.
  intros NN HP. unfold priorityNumber in HP.
  apply bind_Normal in HP as (p & Hp & Hn).
  destruct (Get_Normal parsed (js "category") NN) as [c Hc].
  destruct (Get_Normal parsed (js "sentiment") NN) as [s Hs].
  destruct (Get_Normal parsed (js "reasoning") NN) as [rs Hr].
  unfold normalizeCategorizationResult.
  rewrite Hc, Hs, Hp. simpl. rewrite Hn. simpl. rewrite Hr. simpl. eauto.
Qed.

Lemma normalize_Throw parsed e :
  normalizeCategorizationResult parsed = Throw e ->
  parsed = JNull \/ priorityNumber parsed = Throw e.
Proof.
  intros H. destruct parsed; auto; right; revert H;
    unfold normalizeCategorizationResult, priorityNumber; simpl;
    try discriminate.
  destruct (ToNumber (lookup (js "priority_score") properties));
    simpl; intros H; [discriminate H | inversion H; reflexivity].
Qed.

End Normalization.

Section NormalizationClaims.

Lemma stringField_Get parsed name x :
  Get parsed name = Normal x ->
  forall s, stringField parsed name = Some s <-> x = Some (JStr s).
Proof.
  intros H s. unfold stringField. rewrite H.
  destruct x as [[| | |t| |]|]; split; intros E;
    try discriminate E; inversion E; reflexivity.
Qed.

Lemma trimmedOr_field parsed name x otherwise :
  Get parsed name = Normal x ->
  (forall s, stringField parsed name = Some s -> trim s <> [] ->
             trimmedOr x otherwise = trim s)
  /\ ((forall s, stringField parsed name = Some s -> trim s = []) ->
      trimmedOr x otherwise = otherwise).
Proof.
  intros H. pose proof (stringField_Get parsed name x H) as F.
  destruct (trimmedOr_cases x otherwise) as [(s & -> & Ns & E)|[A E]].
  - split.
    + intros t Ht _. apply F in Ht. inversion Ht; subst. exact E.
    + intros A. contradiction Ns. apply A, F. reflexivity.
  - split.
    + intros t Ht Nt. contradiction Nt. apply A, F, Ht.
    + intros _. exact E.
Qed.

(** C3, amended: for every parsed value other than [null] whose
    [priority_score] converts to a number without an exception,
    normalization returns a result whose [category] is the trimmed parsed
    category when that is a string with a non-empty trim and [Unknown]
    otherwise, whose [sentiment] is [Angry] exactly when the parsed
    sentiment is the string [Angry] and [Neutral] otherwise, and whose
    [reasoning] is the trimmed parsed reasoning when that is a string with
    a non-empty trim and otherwise the text
    [Category: {category}, Sentiment: {sentiment}, Priority: {priority_score}.]
    built from the three normalized fields. *)
Theorem normalize_fields parsed n :
  parsed <> JNull ->
  priorityNumber parsed = Normal n ->
  exists r,
    normalizeCategorizationResult parsed = Normal r
    /\ (forall s, stringField parsed (js "category") = Some s ->
                  trim s <> [] -> category r = trim s)
    /\ ((forall s, stringField parsed (js "category") = Some s ->
                   trim s = []) -> category r = js "Unknown")
    /\ (stringField parsed (js "sentiment") = Some (js "Angry") ->
        sentiment r = js "Angry")
    /\ (stringField parsed (js "sentiment") <> Some (js "Angry") ->
        sentiment r = js "Neutral")
    /\ (forall s, stringField parsed (js "reasoning") = Some s ->
                  trim s <> [] -> reasoning r = trim s)
    /\ ((forall s, stringField parsed (js "reasoning") = Some s ->
                   trim s = []) ->
        reasoning r =
          js "Category: " ++ category r ++ js ", Sentiment: "
          ++ sentiment r ++ js ", Priority: "
          ++ NumberToString (priority_score r) ++ js ".").
Proof.
  intros NN HP.
  destruct (normalize_total parsed n NN HP) as [r Hr].
  exists r. split; [exact Hr|].
  apply normalize_Normal in Hr
    as (c & s & p & m & rs & Hc & Hs & _ & _ & Hrs & Ec & Es & _ & Er).
  destruct (trimmedOr_field parsed _ c (js "Unknown") Hc) as [C1 C2].
  destruct (trimmedOr_field parsed _ rs
              (synthesizedReasoning (category r) (sentiment r)
                 (priority_score r)) Hrs) as [R1 R2].
  pose proof (stringField_Get parsed _ s Hs (js "Angry")) as S.
  split; [rewrite Ec; exact C1|]. split; [rewrite Ec; exact C2|].
  split; [|split];
    [| |split; [rewrite Er; exact R1 | rewrite Er at 1; exact R2]].
  - intros A. apply S in A. rewrite Es. subst s. reflexivity.
  - intros A. rewrite Es.
    destruct (isAngryLiteral s) eqn:L; [|reflexivity].
    contradiction A. apply S.
    destruct s as [[| | |t| |]|]; try discriminate L.
    simpl in L. apply eqb_eq in L. subst t. reflexivity.
Qed.

(** C4, amended: normalization first converts the parsed [priority_score]
    with [Number]; when the number obtained is an integer from 1 to 5 it is
    kept, and otherwise [priority_score] is 3. *)
Theorem normalize_priority parsed n :
  parsed <> JNull ->
  priorityNumber parsed = Normal n ->
  exists r,
    normalizeCategorizationResult parsed = Normal r
    /\ (integerBetween 1 5 n -> priority_score r = n)
    /\ (~ integerBetween 1 5 n -> priority_score r = of_Z 3).
Proof.
  intros NN HP.
  destruct (normalize_total parsed n NN HP) as [r Hr].
  exists r. split; [exact Hr|].
  apply normalize_Normal in Hr
    as (c & s & p & m & rs & _ & _ & Hp & Hm & _ & _ & _ & Ep & _).
  unfold priorityNumber in HP. rewrite Hp in HP. simpl in HP.
  rewrite Hm in HP. inversion HP; subst m. rewrite Ep.
  pose proof (range_test_spec n) as T.
  destruct (negb (isInteger n) || lt n (of_Z 1) || gt n (of_Z 5)).
  - split; [|reflexivity]. intros I. apply T in I. discriminate I.
  - split; [reflexivity|]. intros I. contradiction I. apply T. reflexivity.
Qed.

(** What a result of normalization always satisfies. *)
Lemma normalize_invariant parsed r :
  normalizeCategorizationResult parsed = Normal r ->
  (trim (category r) = category r /\ category r <> [])
  /\ (sentiment r = js "Angry" \/ sentiment r = js "Neutral")
  /\ negb (isInteger (priority_score r))
     || lt (priority_score r) (of_Z 1)
     || gt (priority_score r) (of_Z 5) = false
  /\ (trim (reasoning r) = reasoning r /\ reasoning r <> []).
Proof.
  intros H. apply normalize_Normal in H
    as (c & s & p & n & rs & _ & _ & _ & _ & _ & Ec & Es & Ep & Er).
  rewrite Ec, Es, Ep, Er. repeat split.
  - apply trimmedOr_trimmed; [reflexivity | discriminate].
  - apply trimmedOr_trimmed; [reflexivity | discriminate].
  - destruct (isAngryLiteral s); auto.
  - destruct (negb (isInteger n) || lt n (of_Z 1) || gt n (of_Z 5)) eqn:T;
      [apply range_test_of_Z; lia | exact T].
  - apply trimmedOr_trimmed; apply synthesized_trimmed.
  - apply trimmedOr_trimmed; apply synthesized_trimmed.
Qed.

Lemma trimmedOr_string s otherwise :
  trim s = s -> s <> [] -> trimmedOr (Some (JStr s)) otherwise = s.
Proof.
  intros T N. simpl. rewrite T.
  destruct s; [contradiction N; reflexivity | reflexivity].
Qed.

Lemma normalize_asValue r :
  (trim (category r) = category r /\ category r <> []) ->
  (sentiment r = js "Angry" \/ sentiment r = js "Neutral") ->
  negb (isInteger (priority_score r))
  || lt (priority_score r) (of_Z 1)
  || gt (priority_score r) (of_Z 5) = false ->
  (trim (reasoning r) = reasoning r /\ reasoning r <> []) ->
  normalizeCategorizationResult (asValue r) = Normal r.
Proof.
  destruct r as [c s p rs].
  cbn [category sentiment priority_score reasoning].
  intros [Tc Nc] S P [Tr Nr].
  unfold normalizeCategorizationResult.
  change (Get (asValue (Build_ClassificationResult c s p rs))
            (js "category")) with (Normal (Some (JStr c))).
  change (Get (asValue (Build_ClassificationResult c s p rs))
            (js "sentiment")) with (Normal (Some (JStr s))).
  change (Get (asValue (Build_ClassificationResult c s p rs))
            (js "priority_score")) with (Normal (Some (JNum p))).
  change (Get (asValue (Build_ClassificationResult c s p rs))
            (js "reasoning")) with (Normal (Some (JStr rs))).
  cbn [bind ToNumber]. rewrite P.
  rewrite !trimmedOr_string by assumption.
  destruct S as [-> | ->]; reflexivity.
Qed.

(** C5: normalization is idempotent: normalizing the object that
    normalization returned gives that object again, and an exception of
    the first pass is the outcome of the two passes as well. *)
Theorem normalize_idempotent x :
  (r <- normalizeCategorizationResult x ;;
   normalizeCategorizationResult (asValue r))
  = normalizeCategorizationResult x.
Proof.
  destruct (normalizeCategorizationResult x) as [r|e] eqn:E; simpl;
    [|reflexivity].
  destruct (normalize_invariant x r E) as (C & S & P & R).
  apply normalize_asValue; assumption.
Qed.

End NormalizationClaims.

(* ================================================================== *)
(** * The heuristic classifier *)
(* ================================================================== *)

Section Heuristic.

Ltac branches :=
  repeat match goal with
         | |- context [if ?b then _ else _] => destruct b
         end.

Ltac member := repeat (try (left; reflexivity); right).

(** Every branch of the heuristic returns a well-formed result with one of
    the canonical categories. *)
Lemma getMockCategorization_valid message :
  (sentiment (getMockCategorization message) = js "Neutral"
   \/ sentiment (getMockCategorization message) = js "Angry")
  /\ integerBetween 1 5 (priority_score (getMockCategorization message))
  /\ reasoning (getMockCategorization message) <> []
  /\ In (category (getMockCategorization message)) canonicalCategories.
Proof.
  unfold getMockCategorization.
  destruct (isAngry message); branches;
    cbn [sentiment priority_score reasoning category];
    (split; [auto | split; [apply integerBetween_of_Z; cbn; lia |
      split; [discriminate | cbn; member]]]).
Qed.

(** C7: ["My bill is wrong and the app keeps crashing!!!"] contains a
    billing keyword and a technical keyword; the billing rule comes first
    and the result is [Billing Issue], [Angry] (three exclamation marks)
    and priority [min(5, 4 + 1) = 5]. *)
Theorem heuristic_billing_before_technical :
  includesAny
    (toLowerCase (js "My bill is wrong and the app keeps crashing!!!"))
    billingWords = true
  /\ includesAny
       (toLowerCase (js "My bill is wrong and the app keeps crashing!!!"))
       technicalWords = true
  /\ includes
       (toLowerCase (js "My bill is wrong and the app keeps crashing!!!"))
       (js "!!!") = true
  /\ isAngry (js "My bill is wrong and the app keeps crashing!!!") = true
  /\ getMockCategorization
       (js "My bill is wrong and the app keeps crashing!!!")
     = {| category := js "Billing Issue";
          sentiment := js "Angry";
          priority_score := of_Z (Z.min 5 (4 + 1));
          reasoning := reasoningVariations.billing |}
  /\ of_Z (Z.min 5 (4 + 1)) = of_Z 5.
Proof. repeat split; vm_compute; reflexivity. Qed.

(** C8: a message that no billing, technical or feature keyword matched
    and whose lower-cased text contains [thank], [thanks] or [appreciate]
    but neither [but] nor [however] is classified [General Inquiry],
    [Neutral] and priority 1, whether or not anger was detected. *)
Theorem heuristic_gratitude message :
  includesAny (toLowerCase message) billingWords = false ->
  includesAny (toLowerCase message) technicalWords = false ->
  includesAny (toLowerCase message) featureWords = false ->
  (includes (toLowerCase message) (js "thank") = true
   \/ includes (toLowerCase message) (js "thanks") = true
   \/ includes (toLowerCase message) (js "appreciate") = true) ->
  includes (toLowerCase message) (js "but") = false ->
  includes (toLowerCase message) (js "however") = false ->
  getMockCategorization message
  = {| category := js "General Inquiry";
       sentiment := js "Neutral";
       priority_score := of_Z 1;
       reasoning := reasoningVariations.positive |}.
Proof.
  intros B T F G Nb Nh. unfold getMockCategorization.
  rewrite B, T, F, Nb, Nh.
  replace (includesAny (toLowerCase message) gratitudeWords) with true;
    [reflexivity|].
  symmetry. unfold includesAny, gratitudeWords. cbn [existsb].
  destruct G as [-> | [-> | ->]]; rewrite ?orb_true_r; reflexivity.
Qed.

(** The gratitude rule overrides a detected anger. *)
Lemma heuristic_gratitude_witness :
  isAngry (js "Thank you!!!") = true
  /\ getMockCategorization (js "Thank you!!!")
     = {| category := js "General Inquiry";
          sentiment := js "Neutral";
          priority_score := of_Z 1;
          reasoning := reasoningVariations.positive |}.
Proof.
  split; [reflexivity|].
  apply (heuristic_gratitude (js "Thank you!!!"));
    try reflexivity.
  left; reflexivity.
Defined.

(** C9: the empty message matches no rule and gets the default result:
    [General Inquiry], [Neutral], priority 2 and the manual-review
    reasoning. *)
Theorem heuristic_empty_message :
  isAngry [] = false
  /\ includesAny (toLowerCase []) billingWords = false
  /\ includesAny (toLowerCase []) technicalWords = false
  /\ includesAny (toLowerCase []) featureWords = false
  /\ includesAny (toLowerCase []) gratitudeWords = false
  /\ includesAny (toLowerCase []) inquiryWords = false
  /\ getMockCategorization []
     = {| category := js "General Inquiry";
          sentiment := js "Neutral";
          priority_score := of_Z 2;
          reasoning := reasoningVariations.ambiguous |}.
Proof. repeat split. Qed.

End Heuristic.

(* ================================================================== *)
(** * The fence pattern *)
(* ================================================================== *)

Section Fence.

Local Abbreviation tick := 96%N.

Lemma fence_eq : fence = [tick; tick; tick].
Proof. reflexivity. Qed.

(** Whether a text of at least one character starts with a fence is
    decided by that character and the two after it. *)
Lemma startsWith_fence_closed (c : code_unit) (s rest : jsstring) :
  startsWith ((c :: s) ++ [tick; tick]) fence = false ->
  startsWith ((c :: s) ++ fence ++ rest) fence = false.
Proof.
  rewrite fence_eq.
  destruct s as [|b [|d r]]; cbn [app startsWith];
    rewrite ?N.eqb_refl; intros H.
  - destruct (tick =? c)%N; [discriminate H | reflexivity].
  - destruct (tick =? c)%N, (tick =? b)%N;
      try reflexivity; discriminate H.
  - exact H.
Qed.

Lemma includes_cons (c : code_unit) (s sub : jsstring) :
  includes (c :: s) sub = false ->
  startsWith (c :: s) sub = false /\ includes s sub = false.
Proof. cbn [includes]. apply orb_false_iff. Qed.

Lemma includes_skipn k (s sub : jsstring) :
  includes s sub = false -> includes (skipn k s) sub = false.
Proof.
  revert s. induction k as [|k IH]; intros s H; [exact H|].
  destruct s as [|c r]; [exact H|].
  apply IH. apply (includes_cons c r sub H).
Qed.

Lemma lazyCapture_found (x post : jsstring) :
  includes (x ++ [tick; tick]) fence = false ->
  lazyCapture (x ++ fence ++ post) = Some x.
Proof.
  induction x as [|c r IH]; intros H.
  - reflexivity.
  - apply includes_cons in H as [S I].
    change (lazyCapture ((c :: r) ++ fence ++ post)) with
      (if startsWith ((c :: r) ++ fence ++ post) fence then Some []
       else option_map (cons c) (lazyCapture (r ++ fence ++ post))).
    rewrite (startsWith_fence_closed c r post S), (IH I). reflexivity.
Qed.

Lemma spaceCapture_found (x post : jsstring) :
  includes (x ++ [tick; tick]) fence = false ->
  spaceCapture (x ++ fence ++ post) = Some (trimStart x).
Proof.
  induction x as [|c r IH]; intros H.
  - reflexivity.
  - pose proof (lazyCapture_found (c :: r) post H) as L.
    apply includes_cons in H as [_ I].
    cbn [app spaceCapture trimStart]. cbn [app] in L.
    destruct (isWhiteSpace c); [|exact L].
    rewrite (IH I). reflexivity.
Qed.

Lemma startsWith_tag (body rest : jsstring) :
  startsWith (body ++ fence ++ rest) (js "json")
  = startsWith body (js "json").
Proof.
  rewrite fence_eq. change (js "json") with [106%N; 115%N; 111%N; 110%N].
  destruct body as [|a [|b [|c [|d r]]]]; cbn [app startsWith];
    rewrite ?andb_false_r; reflexivity.
Qed.

Lemma skipn_app_short {A} k (s t : list A) :
  (k <= List.length s)%nat -> skipn k (s ++ t) = skipn k s ++ t.
Proof.
  revert s. induction k as [|k IH]; intros s H; [reflexivity|].
  destruct s as [|c r]; simpl in H; [lia|].
  simpl. apply IH. lia.
Qed.

Lemma startsWith_length (s p : jsstring) :
  startsWith s p = true -> (List.length p <= List.length s)%nat.
Proof.
  revert s. induction p as [|a p IH]; intros s H; simpl; [lia|].
  destruct s as [|b s]; [discriminate H|].
  simpl in H. apply andb_true_iff in H as [_ H]. apply IH in H.
  simpl. lia.
Qed.

Lemma includes_app_skipn k (s t sub : jsstring) :
  includes (s ++ t) sub = false -> (k <= List.length s)%nat ->
  includes (skipn k s ++ t) sub = false.
Proof.
  intros H L. rewrite <- skipn_app_short by exact L.
  apply includes_skipn, H.
Qed.

Lemma tagCapture_found (body post : jsstring) :
  includes (body ++ [tick; tick]) fence = false ->
  tagCapture (body ++ fence ++ post) = Some (trimStart (untagged body)).
Proof.
  intros H. unfold tagCapture, untagged. rewrite startsWith_tag.
  destruct (startsWith body (js "json")) eqn:T.
  - apply startsWith_length in T. change (List.length (js "json")) with 4%nat in T.
    rewrite skipn_app_short by exact T.
    rewrite spaceCapture_found; [reflexivity|].
    apply includes_app_skipn; assumption.
  - apply spaceCapture_found, H.
Qed.

Lemma codeBlockMatch_first (pre rest : jsstring) :
  includes (pre ++ [tick; tick]) fence = false ->
  codeBlockMatch (pre ++ fence ++ rest) = codeBlockMatch (fence ++ rest).
Proof.
  induction pre as [|c r IH]; intros H; [reflexivity|].
  apply includes_cons in H as [S I].
  change (codeBlockMatch ((c :: r) ++ fence ++ rest)) with
    (match matchHere ((c :: r) ++ fence ++ rest) with
     | Some m => Some m
     | None => codeBlockMatch (r ++ fence ++ rest)
     end).
  unfold matchHere. rewrite (startsWith_fence_closed c r rest S).
  apply IH, I.
Qed.

Lemma codeBlockMatch_block (pre body post : jsstring) :
  includes (pre ++ [tick; tick]) fence = false ->
  includes (body ++ [tick; tick]) fence = false ->
  codeBlockMatch (pre ++ fence ++ body ++ fence ++ post)
  = Some (trimStart (untagged body)).
Proof.
  intros P B. rewrite (codeBlockMatch_first pre _ P).
  change (codeBlockMatch (fence ++ body ++ fence ++ post)) with
    (match tagCapture (body ++ fence ++ post) with
     | Some m => Some m
     | None => codeBlockMatch ([tick; tick] ++ body ++ fence ++ post)
     end).
  rewrite (tagCapture_found body post B). reflexivity.
Qed.

(** A text without three back-ticks in a row has no fenced block. *)
Lemma codeBlockMatch_none (s : jsstring) : includes s fence = false -> codeBlockMatch s = None.
Proof.
  induction s as [|c r IH]; intros H; [reflexivity|].
  apply includes_cons in H as [S I].
  cbn [codeBlockMatch]. unfold matchHere. rewrite S. apply IH, I.
Qed.

Lemma jsonStr_block (pre body post : jsstring) :
  includes (pre ++ [tick; tick]) fence = false ->
  includes (body ++ [tick; tick]) fence = false ->
  jsonStr (pre ++ fence ++ body ++ fence ++ post) = trim (untagged body).
Proof.
  intros P B. unfold jsonStr.
  rewrite (codeBlockMatch_block pre body post P B). apply trim_trimStart.
Qed.

(** C10: the reply parser takes the first fenced block wherever it is in
    the reply.  When the first three back-ticks in a row come right after
    [pre] and the next three right after [body], the text handed to
    [JSON.parse] is [body] without its optional [json] tag, trimmed; [pre]
    and [post] play no part in the parsed value. *)
Theorem first_fence_only (pre body post : jsstring) :
  includes (pre ++ js "``") fence = false ->
  includes (body ++ js "``") fence = false ->
  jsonStr (pre ++ fence ++ body ++ fence ++ post) = trim (untagged body)
  /\ parseJsonResponse (pre ++ fence ++ body ++ fence ++ post)
     = parseJsonResponse (fence ++ body ++ fence).
Proof.
  intros P B.
  split; [apply jsonStr_block; assumption|].
  unfold parseJsonResponse. rewrite (jsonStr_block pre body post P B).
  pose proof (jsonStr_block [] body [] eq_refl B) as E.
  cbn [app] in E. rewrite app_nil_r in E. rewrite E. reflexivity.
Qed.

Lemma first_fence_only_witness :
  jsonStr (js "Sure! ```json {} ``` Anything else? ```[1]```") = js "{}"
  /\ parseJsonResponse (js "Sure! ```json {} ``` Anything else? ```[1]```")
     = JObj [].
Proof.
  destruct (first_fence_only (js "Sure! ") (js "json {} ")
              (js " Anything else? ```[1]```") eq_refl eq_refl)
    as [E P].
  split; [exact E | exact P].
Defined.

End Fence.

(* ================================================================== *)
(** * JSON.parse and white space around the text *)
(* ================================================================== *)

Section JsonSpace.
Local Open Scope N_scope.

(** No white space character is a printable ASCII character. *)
Lemma isWhiteSpace_bounds c :
  isWhiteSpace c = true -> c < 33 \/ 126 < c.
Proof.
  unfold isWhiteSpace, in_range.
  rewrite !orb_true_iff, !andb_true_iff, !N.eqb_eq, !N.leb_le. lia.
Qed.

Lemma eqb_outside c k :
  c < 33 \/ 126 < c -> 33 <= k <= 126 -> (c =? k) = false.
Proof. intros. apply N.eqb_neq. lia. Qed.

Lemma in_range_outside c lo hi :
  c < 33 \/ 126 < c -> 33 <= lo -> hi <= 126 -> in_range lo hi c = false.
Proof.
  intros. unfold in_range. apply andb_false_iff.
  rewrite !N.leb_gt. lia.
Qed.

Ltac outside H :=
  rewrite ?(eqb_outside _ _ H), ?(in_range_outside _ _ _ H) by lia;
  cbn [orb andb].

(** Between two tokens the only white space is JSON white space, and it is
    skipped. *)
Lemma start_space toks c st :
  isWhiteSpace c = true -> start toks c = Some st -> st = (toks, Idle).
Proof.
  intros W. apply isWhiteSpace_bounds in W. unfold start.
  destruct (isJsonSpace c); [intros H; inversion H; reflexivity|].
  unfold punctuation, isDigit, isLetter. outside W. discriminate.
Qed.

(** A white space character at the end of a text that lexes can be
    dropped. *)
Lemma lexStep_space st c st' toks :
  isWhiteSpace c = true ->
  lexStep st c = Some st' -> finish st' = Some toks ->
  finish st = Some toks.
Proof.
  intros W. pose proof (isWhiteSpace_bounds c W) as O.
  destruct st as [ts m]. destruct m as [|t|t|t|t|t h]; cbn [lexStep].
  - intros S F. apply (start_space _ _ _ W) in S. subst st'. exact F.
  - unfold isNumberChar, isDigit. outside O.
    destruct (finish (ts, InNumber t)) as [ts'|]; [|discriminate].
    intros S F. apply (start_space _ _ _ W) in S. subst st'. exact F.
  - unfold isLetter. outside O.
    destruct (finish (ts, InLiteral t)) as [ts'|]; [|discriminate].
    intros S F. apply (start_space _ _ _ W) in S. subst st'. exact F.
  - outside O. destruct (c <? 32); intros S F; inversion S; subst st'.
    discriminate F.
  - outside O. unfold escape. outside O. discriminate.
  - unfold isHexDigit, isDigit. outside O. discriminate.
Qed.

Lemma lexFrom_trimStart s toks r :
  lexFrom (toks, Idle) s = Some r ->
  lexFrom (toks, Idle) (trimStart s) = Some r.
Proof.
  induction s as [|c s IH]; intros H; [exact H|].
  cbn [trimStart]. destruct (isWhiteSpace c) eqn:W; [|exact H].
  apply IH. cbn [lexFrom] in H.
  destruct (lexStep (toks, Idle) c) as [st|] eqn:S; [|discriminate H].
  cbn [lexStep] in S. apply (start_space _ _ _ W) in S. subst st. exact H.
Qed.

Lemma lexFrom_trimEnd s st r :
  lexFrom st s = Some r -> lexFrom st (trimEnd s) = Some r.
Proof.
  revert st. induction s as [|c s IH]; intros st H; [exact H|].
  cbn [lexFrom] in H.
  destruct (lexStep st c) as [st'|] eqn:S; [|discriminate H].
  apply IH in H. cbn [trimEnd].
  destruct (trimEnd s) as [|d s'] eqn:T.
  - cbn [lexFrom] in H. destruct (isWhiteSpace c) eqn:W.
    + cbn [lexFrom]. apply (lexStep_space st c st' r W S H).
    + cbn [lexFrom]. rewrite S. exact H.
  - cbn [lexFrom]. rewrite S. exact H.
Qed.

(** [JSON.parse] gives the same value once the white space around a JSON
    text is trimmed off. *)
Lemma parse_trim s v : parse s = Normal v -> parse (trim s) = Normal v.
Proof.
  unfold parse, lex, trim.
  destruct (lexFrom ([], Idle) s) as [toks|] eqn:L; [|discriminate].
  apply lexFrom_trimStart, lexFrom_trimEnd in L. rewrite L. trivial.
Qed.

End JsonSpace.

(* ================================================================== *)
(** * Reply parsing: fenced and bare JSON *)
(* ================================================================== *)

Section Replies.

Lemma includes_newline_ticks (j : jsstring) :
  includes j fence = false ->
  includes (j ++ [10%N; 96%N; 96%N]) fence = false.
Proof.
  induction j as [|c r IH]; intros H; [reflexivity|].
  apply includes_cons in H as [S I].
  change (includes ((c :: r) ++ [10%N; 96%N; 96%N]) fence) with
    (startsWith ((c :: r) ++ [10%N; 96%N; 96%N]) fence
     || includes (r ++ [10%N; 96%N; 96%N]) fence).
  rewrite (IH I), orb_false_r.
  revert S. rewrite fence_eq.
  destruct r as [|b [|d r']]; cbn [app startsWith]; intros S.
  - destruct (96 =? c)%N; reflexivity.
  - destruct (96 =? c)%N, (96 =? b)%N; reflexivity.
  - exact S.
Qed.

Lemma fenced_block (j : jsstring) :
  fenced j = [] ++ fence ++ (js "json" ++ [10%N] ++ j ++ [10%N])
             ++ fence ++ [].
Proof.
  unfold fenced. rewrite app_nil_r, <- !app_assoc. reflexivity.
Qed.

Lemma jsonStr_fenced (j : jsstring) :
  includes j fence = false -> jsonStr (fenced j) = trim j.
Proof.
  intros H. rewrite fenced_block.
  rewrite jsonStr_block.
  - apply trim_padded; reflexivity.
  - reflexivity.
  - rewrite <- !app_assoc.
    apply includes_newline_ticks in H.
    change (includes (js "json" ++ [10%N] ++ j ++ [10%N] ++ js "``") fence)
      with (false || (false || (false || (false || (false ||
              includes (j ++ [10%N; 96%N; 96%N]) fence))))).
    exact H.
Qed.

Lemma jsonStr_bare (j : jsstring) :
  includes j fence = false -> jsonStr j = j.
Proof. intros H. unfold jsonStr. rewrite (codeBlockMatch_none j H). reflexivity. Qed.

(** C6, amended: for every JSON text [j] that does not contain three
    back-ticks in a row, [j] wrapped in a fenced code block tagged [json]
    and [j] itself are parsed to the same object, the value of [j]. *)
Theorem fenced_same_as_bare (j : jsstring) (v : value) :
  parse j = Normal v ->
  includes j fence = false ->
  parseJsonResponse (fenced j) = v /\ parseJsonResponse j = v.
Proof.
  intros P H. unfold parseJsonResponse.
  rewrite (jsonStr_fenced j H), (jsonStr_bare j H).
  rewrite (parse_trim j v P), P. split; reflexivity.
Qed.

Lemma fenced_same_as_bare_witness :
  parseJsonResponse
    (fenced (js "{" ++ quoted (js "category") ++ js ": "
             ++ quoted (js "Billing Issue") ++ js "}"))
  = JObj [(js "category", JStr (js "Billing Issue"))]
  /\ parseJsonResponse
       (js "{" ++ quoted (js "category") ++ js ": "
        ++ quoted (js "Billing Issue") ++ js "}")
     = JObj [(js "category", JStr (js "Billing Issue"))].
Proof.
  apply (fenced_same_as_bare
           (js "{" ++ quoted (js "category") ++ js ": "
            ++ quoted (js "Billing Issue") ++ js "}")).
  - vm_compute. reflexivity.
  - vm_compute. reflexivity.
Defined.

(** C6 as stated fails: the JSON text ["```1```"], a string literal, holds
    a fenced block of its own.  Bare, the pattern extracts [1] from inside
    the literal; fenced, it stops at the first back-ticks of the literal
    and the extracted text is not JSON. *)
Lemma fence_inside_json_text :
  parse (quoted (js "```1```")) = Normal (JStr (js "```1```"))
  /\ parseJsonResponse (fenced (quoted (js "```1```"))) = JObj []
  /\ parseJsonResponse (quoted (js "```1```")) = JNum (of_Z 1)
  /\ parseJsonResponse (fenced (quoted (js "```1```")))
     <> parseJsonResponse (quoted (js "```1```")).
Proof.
  repeat split; try (vm_compute; reflexivity).
  vm_compute. discriminate.
Qed.

End Replies.

(* ================================================================== *)
(** * categorizeMessage *)
(* ================================================================== *)

Section Classify.

(** C1: for every message and every outcome of the remote call, the
    rejected promise and a reply of any text alike, [categorizeMessage]
    returns (an exception of the [try] block ends in the heuristic, which
    cannot throw) an object whose [sentiment] is [Neutral] or [Angry],
    whose [priority_score] is an integer from 1 to 5 and whose [reasoning]
    is not empty; when the heuristic produced it, its [category] is one of
    the five canonical values. *)
Theorem categorizeMessage_valid message outcome :
  (sentiment (categorizeMessage message outcome) = js "Neutral"
   \/ sentiment (categorizeMessage message outcome) = js "Angry")
  /\ integerBetween 1 5 (priority_score (categorizeMessage message outcome))
  /\ reasoning (categorizeMessage message outcome) <> []
  /\ (fallbackTaken outcome = true ->
      categorizeMessage message outcome = getMockCategorization message
      /\ In (category (categorizeMessage message outcome))
           canonicalCategories).
Proof.
  unfold categorizeMessage, fallbackTaken.
  destruct (remoteAttempt outcome) as [r|e] eqn:E.
  - destruct outcome as [reply| |]; try discriminate E.
    apply normalize_invariant in E as (_ & S & P & _ & R).
    repeat split.
    + tauto.
    + apply range_test_spec, P.
    + exact R.
    + discriminate.
    + discriminate.
  - destruct (getMockCategorization_valid message) as (S & P & R & C).
    repeat split; assumption.
Qed.

(** A reply whose text is [null]: the heuristic answers. *)
Lemma categorizeMessage_valid_witness :
  fallbackTaken (Fulfilled (js "null")) = true
  /\ In (category (categorizeMessage (js "I want a refund")
                     (Fulfilled (js "null"))))
       canonicalCategories.
Proof.
  split; [reflexivity|].
  apply (categorizeMessage_valid (js "I want a refund")
           (Fulfilled (js "null"))).
  reflexivity.
Defined.

Lemma normalize_empty_object :
  normalizeCategorizationResult (JObj []) = Normal defaults.
Proof. vm_compute. reflexivity. Qed.






(** C3 as stated fails: there are parsed values on which normalization
    returns nothing.  On [null], the value of the reply [null], reading
    [parsed.category] throws a TypeError.  On the object of the reply
    [{"priority_score": {"toString": 0}}], [Number] finds no method that
    converts the inner object to a primitive ([valueOf] returns the object
    and [toString] is the number 0, which cannot be called) and throws a
    TypeError. *)
Lemma normalize_throws :
  (parseJsonResponse (js "null") = JNull
   /\ normalizeCategorizationResult (parseJsonResponse (js "null"))
      = Throw TypeError)
  /\ (parseJsonResponse
        (js "{" ++ quoted (js "priority_score") ++ js ": {"
         ++ quoted (js "toString") ++ js ": 0}}")
      = JObj [(js "priority_score", JObj [(js "toString", JNum (of_Z 0))])]
      /\ normalizeCategorizationResult
           (JObj [(js "priority_score",
                   JObj [(js "toString", JNum (of_Z 0))])])
         = Throw TypeError).
Proof. repeat split; vm_compute; reflexivity. Qed.

Lemma normalize_fields_witness :
  exists r,
    normalizeCategorizationResult
      (JObj [(js "category", JStr (js " Spam "));
             (js "sentiment", JStr (js "angry"))]) = Normal r
    /\ category r = js "Spam"
    /\ sentiment r = js "Neutral"
    /\ reasoning r = js "Category: Spam, Sentiment: Neutral, Priority: 3.".
Proof.
  destruct (normalize_fields
              (JObj [(js "category", JStr (js " Spam "));
                     (js "sentiment", JStr (js "angry"))]) NaN)
    as (r & Hr & C & _ & _ & S & _ & R).
  - discriminate.
  - reflexivity.
  - exists r. split; [exact Hr|].
    assert (Ec : category r = js "Spam")
      by (apply (C (js " Spam ")); [reflexivity | discriminate]).
    assert (Es : sentiment r = js "Neutral")
      by (apply S; discriminate).
    split; [exact Ec|]. split; [exact Es|].
    rewrite R by (intros s H; discriminate H).
    rewrite Ec, Es.
    apply normalize_Normal in Hr
      as (_ & _ & p & m & _ & _ & _ & Hp & Hm & _ & _ & _ & Ep & _).
    inversion Hp; subst p. inversion Hm; subst m. rewrite Ep.
    vm_compute. reflexivity.
Defined.

(** C4 as stated fails: the string ["4"] is not an integer and yet
    normalization does not replace it with 3; [Number] converts it and the
    result, 4, is kept. *)
Lemma string_priority_is_converted :
  stringField (JObj [(js "priority_score", JStr (js "4"))])
    (js "priority_score") = Some (js "4")
  /\ normalizeCategorizationResult
       (JObj [(js "priority_score", JStr (js "4"))])
     = Normal {| category := js "Unknown";
                 sentiment := js "Neutral";
                 priority_score := of_Z 4;
                 reasoning :=
                   js "Category: Unknown, Sentiment: Neutral, Priority: 4." |}
  /\ of_Z 4 <> of_Z 3.
Proof.
  repeat split; try (vm_compute; reflexivity). discriminate.
Qed.

(** The number 0 and the string ["high"] of the claim normalize to 3. *)
Lemma normalize_priority_witness :
  (exists r,
      normalizeCategorizationResult
        (JObj [(js "priority_score", JNum (of_Z 0))]) = Normal r
      /\ priority_score r = of_Z 3)
  /\ (exists r,
         normalizeCategorizationResult
           (JObj [(js "priority_score", JStr (js "high"))]) = Normal r
         /\ priority_score r = of_Z 3)
  /\ (exists r,
         normalizeCategorizationResult
           (JObj [(js "priority_score", JNum (of_Z 2))]) = Normal r
         /\ priority_score r = of_Z 2).
Proof.
  split; [|split].
  - destruct (normalize_priority
                (JObj [(js "priority_score", JNum (of_Z 0))]) (of_Z 0))
      as (r & Hr & _ & Out); [discriminate | reflexivity |].
    exists r. split; [exact Hr|]. apply Out.
    intros I. apply range_test_spec in I. discriminate I.
  - destruct (normalize_priority
                (JObj [(js "priority_score", JStr (js "high"))]) NaN)
      as (r & Hr & _ & Out); [discriminate | reflexivity |].
    exists r. split; [exact Hr|]. apply Out.
    intros I. apply range_test_spec in I. discriminate I.
  - destruct (normalize_priority
                (JObj [(js "priority_score", JNum (of_Z 2))]) (of_Z 2))
      as (r & Hr & In & _); [discriminate | reflexivity |].
    exists r. split; [exact Hr|]. apply In.
    apply integerBetween_of_Z. lia.
Defined.

End Classify.

(* ================================================================== *)
(** * More on strings *)
(* ================================================================== *)

Section MoreStrings.
Local Open Scope N_scope.

Lemma toLowerCase_app (s t : jsstring) :
  toLowerCase (s ++ t) = toLowerCase s ++ toLowerCase t.
Proof. apply flat_map_app. Qed.

Lemma lower_unit_fixed (c : code_unit) :
  toLowerCase (lower_unit c) = lower_unit c.
Proof.
  unfold lower_unit.
  destruct (in_range 65 90 c) eqn:U.
  - unfold in_range in U. apply andb_true_iff in U as [L H].
    apply N.leb_le in L, H.
    cbn [toLowerCase flat_map]. unfold lower_unit, in_range.
    replace (c + 32 <=? 90) with false by (symmetry; apply N.leb_gt; lia).
    rewrite andb_false_r.
    replace (c + 32 =? 8490) with false by (symmetry; apply N.eqb_neq; lia).
    replace (c + 32 =? 304) with false by (symmetry; apply N.eqb_neq; lia).
    reflexivity.
  - destruct (c =? 8490) eqn:K; [reflexivity|].
    destruct (c =? 304) eqn:I; [reflexivity|].
    cbn [toLowerCase flat_map]. unfold lower_unit. rewrite U, K, I.
    reflexivity.
Qed.

Lemma toLowerCase_idempotent (s : jsstring) :
  toLowerCase (toLowerCase s) = toLowerCase s.
Proof.
  induction s as [|c r IH]; [reflexivity|].
  change (toLowerCase (c :: r)) with (lower_unit c ++ toLowerCase r).
  rewrite toLowerCase_app, IH, lower_unit_fixed. reflexivity.
Qed.

Lemma count_unit_app c (s t : jsstring) :
  count_unit c (s ++ t) = (count_unit c s + count_unit c t)%nat.
Proof. unfold count_unit. rewrite filter_app, length_app. reflexivity. Qed.

(** Lower-casing neither adds nor removes an exclamation mark. *)
Lemma count_bang_lower (s : jsstring) :
  count_unit 33 (toLowerCase s) = count_unit 33 s.
Proof.
  induction s as [|c r IH]; [reflexivity|].
  change (toLowerCase (c :: r)) with (lower_unit c ++ toLowerCase r).
  change (count_unit 33 (c :: r)) with (count_unit 33 ([c] ++ r)).
  rewrite !count_unit_app, IH. f_equal.
  unfold lower_unit.
  destruct (in_range 65 90 c) eqn:U.
  - unfold in_range in U. apply andb_true_iff in U as [L H].
    apply N.leb_le in L, H. unfold count_unit. cbn [filter].
    replace (33 =? c + 32) with false by (symmetry; apply N.eqb_neq; lia).
    replace (33 =? c) with false by (symmetry; apply N.eqb_neq; lia).
    reflexivity.
  - destruct (N.eqb_spec c 8490) as [->|_]; [reflexivity|].
    destruct (N.eqb_spec c 304) as [->|_]; reflexivity.
Qed.

Lemma startsWith_app (s t p : jsstring) :
  startsWith s p = true -> startsWith (s ++ t) p = true.
Proof.
  revert s. induction p as [|a p IH]; intros s H; [reflexivity|].
  destruct s as [|b s]; [discriminate H|].
  cbn [app startsWith] in *. apply andb_true_iff in H as [E H].
  rewrite E, (IH s H). reflexivity.
Qed.

Lemma startsWith_self (p t : jsstring) : startsWith (p ++ t) p = true.
Proof.
  induction p as [|a p IH]; [reflexivity|].
  cbn [app startsWith]. rewrite N.eqb_refl, IH. reflexivity.
Qed.

Lemma includes_app_r (s t p : jsstring) :
  includes s p = true -> includes (s ++ t) p = true.
Proof.
  induction s as [|c r IH]; intros H.
  - cbn [includes] in H. rewrite orb_false_r in H.
    destruct p; [|discriminate H]. destruct t; reflexivity.
  - cbn [app includes] in *. apply orb_true_iff in H as [H|H].
    + change (c :: r ++ t) with ((c :: r) ++ t).
      rewrite (startsWith_app _ t _ H). reflexivity.
    + rewrite (IH H). apply orb_true_r.
Qed.

Lemma includes_app_l (s t p : jsstring) :
  includes t p = true -> includes (s ++ t) p = true.
Proof.
  intros H. induction s as [|c r IH]; [exact H|].
  cbn [app includes]. rewrite IH. apply orb_true_r.
Qed.

(** A text occurs in whatever is written around it. *)
Lemma includes_middle (pre w post : jsstring) :
  includes (pre ++ w ++ post) w = true.
Proof.
  apply includes_app_l.
  destruct (w ++ post) eqn:E; cbn [includes];
    rewrite <- E, startsWith_self; reflexivity.
Qed.

End MoreStrings.

(* ================================================================== *)
(** * More on the heuristic classifier *)
(* ================================================================== *)

Section MoreHeuristic.

Ltac branches :=
  repeat match goal with
         | |- context [if ?b then _ else _] => destruct b
         end.

(** The heuristic reads the message through its lower-cased text and its
    number of exclamation marks only. *)
Lemma heuristic_same_lowered (m1 m2 : jsstring) :
  toLowerCase m1 = toLowerCase m2 ->
  getMockCategorization m1 = getMockCategorization m2.
Proof.
  intros E.
  assert (C : count_unit 33%N m1 = count_unit 33%N m2)
    by (rewrite <- (count_bang_lower m1), E; apply count_bang_lower).
  unfold getMockCategorization, isAngry. rewrite E, C. reflexivity.
Qed.

Lemma toLowerCase_asciiLower (s : jsstring) :
  toLowerCase (asciiLower s) = toLowerCase s.
Proof.
  induction s as [|c r IH]; [reflexivity|].
  change (toLowerCase (asciiLower (c :: r)))
    with (lower_unit (if in_range 65 90 c then (c + 32)%N else c)
          ++ toLowerCase (asciiLower r)).
  change (toLowerCase (c :: r)) with (lower_unit c ++ toLowerCase r).
  rewrite IH. f_equal.
  destruct (in_range 65 90 c) eqn:U; [|reflexivity].
  unfold lower_unit. rewrite U. unfold in_range in *.
  apply andb_true_iff in U as [L H]. apply N.leb_le in L, H.
  replace (c + 32 <=? 90)%N with false by (symmetry; apply N.leb_gt; lia).
  rewrite andb_false_r.
  replace (c + 32 =? 8490)%N with false by (symmetry; apply N.eqb_neq; lia).
  replace (c + 32 =? 304)%N with false by (symmetry; apply N.eqb_neq; lia).
  reflexivity.
Qed.

(** X1: two messages that differ only in the case of ASCII letters, that
    is, that are equal once A-Z is written a-z, get the same result from the
    heuristic. *)
Theorem heuristic_ignores_ascii_case (m1 m2 : jsstring) :
  asciiLower m1 = asciiLower m2 ->
  getMockCategorization m1 = getMockCategorization m2.
Proof.
  intros E. apply heuristic_same_lowered.
  rewrite <- (toLowerCase_asciiLower m1), E. apply toLowerCase_asciiLower.
Qed.

Lemma heuristic_ignores_ascii_case_witness :
  getMockCategorization (js "REFUND me NOW!!")
  = getMockCategorization (js "refund me now!!").
Proof.
  apply (heuristic_ignores_ascii_case (js "REFUND me NOW!!")
           (js "refund me now!!")).
  reflexivity.
Defined.

Lemma includesAny_middle (pre mid post : jsstring) (w : string)
  (words : list string) :
  In w words -> toLowerCase mid = js w ->
  includesAny (toLowerCase (pre ++ mid ++ post)) words = true.
Proof.
  intros I E. unfold includesAny. apply existsb_exists.
  exists w. split; [exact I|].
  rewrite !toLowerCase_app, E. apply includes_middle.
Qed.

(** X2: the billing rule comes first and matches inside words and in any
    letter case: a message that holds a billing keyword anywhere is a
    [Billing Issue] of priority 5 when anger is detected and 3 otherwise,
    whatever else it says. *)
Theorem heuristic_billing_anywhere (pre mid post : jsstring) (w : string) :
  In w billingWords ->
  toLowerCase mid = js w ->
  getMockCategorization (pre ++ mid ++ post)
  = {| category := js "Billing Issue";
       sentiment := if isAngry (pre ++ mid ++ post)
                    then js "Angry" else js "Neutral";
       priority_score := of_Z (if isAngry (pre ++ mid ++ post) then 5 else 3);
       reasoning := reasoningVariations.billing |}.
Proof.
  intros I E. unfold getMockCategorization.
  rewrite (includesAny_middle pre mid post w billingWords I E).
  destruct (isAngry (pre ++ mid ++ post)); reflexivity.
Qed.

Lemma heuristic_billing_anywhere_witness :
  getMockCategorization (js "The server crashed, thanks a BILLion!")
  = {| category := js "Billing Issue";
       sentiment := js "Neutral";
       priority_score := of_Z 3;
       reasoning := reasoningVariations.billing |}.
Proof.
  apply (heuristic_billing_anywhere (js "The server crashed, thanks a ")
           (js "BILL") (js "ion!") "bill").
  - left. reflexivity.
  - reflexivity.
Defined.

(** X3: on the heuristic path the urgency shown is [High] exactly for the
    messages found angry and for the technical problems, [Medium] exactly
    for the billing issues without anger, and [Low] otherwise. *)
Theorem heuristic_urgency message :
  (urgency (priority_score (getMockCategorization message)) = js "High"
   <-> sentiment (getMockCategorization message) = js "Angry"
       \/ category (getMockCategorization message) = js "Technical Problem")
  /\ (urgency (priority_score (getMockCategorization message)) = js "Medium"
      <-> sentiment (getMockCategorization message) = js "Neutral"
          /\ category (getMockCategorization message) = js "Billing Issue").
Proof.
  unfold getMockCategorization.
  destruct (isAngry message); branches;
    cbn [sentiment priority_score category]; vm_compute;
    (split; split; intros H;
     try discriminate H;
     try reflexivity;
     try (left; reflexivity);
     try (right; reflexivity);
     try (split; reflexivity);
     try (destruct H as [H|H]; discriminate H);
     try (destruct H as [H1 H2]; (discriminate H1 || discriminate H2))).
Qed.

End MoreHeuristic.

(* ================================================================== *)
(** * More on categorizeMessage and its caller *)
(* ================================================================== *)

Section MoreClassify.
Local Open Scope Z_scope.

(** The urgency of a number with an integer value. *)
Lemma urgency_integer q k :
  Qeq q (inject_Z k) ->
  urgency (Finite q)
  = if 4 <=? k then js "High"
    else if k =? 3 then js "Medium" else js "Low".
Proof.
  intros E. unfold urgency, ge, lt, strictEquals, JsNumber.eqb, of_Z.
  rewrite negb_involutive.
  replace (Qle_bool (inject_Z 4) q) with (4 <=? k).
  - destruct (4 <=? k); [reflexivity|].
    replace (Qeq_bool q (inject_Z 3)) with (k =? 3); [reflexivity|].
    destruct (Z.eqb_spec k 3) as [->|N]; symmetry.
    + apply Qeq_bool_iff, E.
    + apply not_true_is_false. intros H. apply Qeq_bool_iff in H.
      rewrite E in H. apply N. apply inject_Z_injective, H.
  - destruct (Z.leb_spec 4 k) as [L|L]; symmetry.
    + apply Qle_bool_iff. rewrite E, <- Zle_Qle. exact L.
    + apply not_true_is_false. intros H. apply Qle_bool_iff in H.
      rewrite E, <- Zle_Qle in H. lia.
Qed.

Lemma categorizeMessage_priority message outcome :
  integerBetween 1 5 (priority_score (categorizeMessage message outcome)).
Proof.
  unfold categorizeMessage.
  destruct (remoteAttempt outcome) as [r|e] eqn:E.
  - destruct outcome as [reply| |]; try discriminate E.
    apply normalize_invariant in E as (_ & _ & P & _).
    apply range_test_spec, P.
  - apply getMockCategorization_valid.
Qed.

(** X4: whatever the message and the outcome of the remote call, the
    urgency that [handleAnalyze] derives follows the bands of its comment:
    the priority is 1 or 2 and the urgency [Low], or 3 and [Medium], or 4
    or 5 and [High]. *)
Theorem urgency_bands message outcome :
  exists k : Z,
    match priority_score (categorizeMessage message outcome) with
    | Finite q => Qeq q (inject_Z k)
    | _ => False
    end
    /\ (((k = 1 \/ k = 2)
         /\ urgency (priority_score (categorizeMessage message outcome))
            = js "Low")
        \/ (k = 3
            /\ urgency (priority_score (categorizeMessage message outcome))
               = js "Medium")
        \/ ((k = 4 \/ k = 5)
            /\ urgency (priority_score (categorizeMessage message outcome))
               = js "High")).
Proof.
  destruct (categorizeMessage_priority message outcome) as [k [K E]].
  exists k. split; [exact E|].
  destruct (priority_score (categorizeMessage message outcome)) as [| |q];
    try contradiction.
  rewrite (urgency_integer q k E).
  assert (C : k = 1 \/ k = 2 \/ k = 3 \/ k = 4 \/ k = 5) by lia.
  destruct C as [-> | [-> | [-> | [-> | ->]]]]; cbn; tauto.
Qed.

(** The results of the heuristic have the form normalization gives. *)
Lemma heuristic_normal_form message :
  normalizeCategorizationResult (asValue (getMockCategorization message))
  = Normal (getMockCategorization message).
Proof.
  unfold getMockCategorization.
  destruct (isAngry message);
    repeat match goal with
           | |- context [if ?b then _ else _] => destruct b
           end;
    vm_compute; reflexivity.
Qed.

(** X5: every object [categorizeMessage] returns, from the model's reply or
    from the heuristic, is unchanged by normalization: its category and
    reasoning are trimmed and not empty, its sentiment is one of the two
    values and its priority an integer from 1 to 5. *)
Theorem result_normal_form message outcome :
  normalizeCategorizationResult (asValue (categorizeMessage message outcome))
  = Normal (categorizeMessage message outcome).
Proof.
  unfold categorizeMessage.
  destruct (remoteAttempt outcome) as [r|e] eqn:E.
  - destruct outcome as [reply| |]; try discriminate E.
    destruct (normalize_invariant _ r E) as (C & S & P & R).
    apply normalize_asValue; assumption.
  - apply heuristic_normal_form.
Qed.

(** X6: a reply whose JSON value is not an object (a number, a string, a
    boolean or an array) has no field to read: the result is the defaults
    [Unknown], [Neutral], 3, and the heuristic is not consulted. *)
Theorem non_object_reply_defaults message reply v :
  parse (jsonStr (trim reply)) = Normal v ->
  v <> JNull ->
  (forall props, v <> JObj props) ->
  fallbackTaken (Fulfilled reply) = false
  /\ categorizeMessage message (Fulfilled reply) = defaults.
Proof.
  intros P N O.
  unfold fallbackTaken, categorizeMessage, remoteAttempt, parseJsonResponse.
  rewrite P.
  destruct v as [|b|n|s|l|props];
    try (contradiction N; reflexivity);
    try (contradiction (O props); reflexivity);
    split; vm_compute; reflexivity.
Qed.

Lemma non_object_reply_defaults_witness :
  categorizeMessage (js "I want a refund")
    (Fulfilled (js "[1, 2, 3]")) = defaults.
Proof.
  apply (non_object_reply_defaults (js "I want a refund") (js "[1, 2, 3]")
           (JArr [JNum (of_Z 1); JNum (of_Z 2); JNum (of_Z 3)])).
  - vm_compute. reflexivity.
  - discriminate.
  - discriminate.
Defined.

End MoreClassify.

(* ================================================================== *)
(** * When normalization throws *)
(* ================================================================== *)

Section Conversion.

(** [Number] of a value that is no array: an object converts to NaN, or
    throws a TypeError when it has a property named [toString]. *)
Lemma ToNumber_no_array (x : property) e :
  (forall l, x <> Some (JArr l)) ->
  (ToNumber x = Throw e
   <-> e = TypeError
       /\ exists inner t,
            x = Some (JObj inner) /\ lookup (js "toString") inner = Some t).
Proof.
  intros A. destruct x as [[|b|n|s|l|inner]|];
    try (split; [discriminate | intros (_ & i & t & Hi & _); discriminate Hi]).
  - contradiction (A l). reflexivity.
  - cbn [ToNumber ToString].
    destruct (lookup (js "toString") inner) as [t|] eqn:L; cbn [bind]; split.
    + intros H. inversion H. eauto.
    + intros [-> _]. reflexivity.
    + discriminate.
    + intros (_ & i & t & Hi & L'). inversion Hi; subst i.
      rewrite L in L'. discriminate L'.
Qed.

(** X7: when [priority_score] is not an array, [normalizeCategorizationResult]
    throws in two cases and no other, each time a TypeError: [parsed] is
    [null], or [priority_score] is an object with a property named
    [toString].  In every other such case it returns. *)
Theorem normalize_throws_iff parsed e :
  (forall props l,
      parsed = JObj props ->
      lookup (js "priority_score") props <> Some (JArr l)) ->
  (normalizeCategorizationResult parsed = Throw e
   <-> e = TypeError
       /\ (parsed = JNull
           \/ exists props inner t,
                parsed = JObj props
                /\ lookup (js "priority_score") props = Some (JObj inner)
                /\ lookup (js "toString") inner = Some t)).
Proof.
  intros A. split.
  - intros H. destruct parsed as [|b|n|s|l|props];
      try (cbn in H; discriminate H).
    + inversion H. auto.
    + apply normalize_Throw in H as [H|H]; [discriminate H|].
      unfold priorityNumber in H. cbn [Get bind] in H.
      apply ToNumber_no_array in H as [-> (inner & t & L & T)].
      * split; [reflexivity|]. right. exists props, inner, t. auto.
      * intros l. apply (A props l eq_refl).
  - intros [-> [->|(props & inner & t & -> & L & T)]]; [reflexivity|].
    assert (N : ToNumber (lookup (js "priority_score") props)
                = Throw TypeError).
    { apply ToNumber_no_array.
      - intros l. apply (A props l eq_refl).
      - split; [reflexivity|]. exists inner, t. auto. }
    unfold normalizeCategorizationResult. cbn [Get bind].
    rewrite N. reflexivity.
Qed.

Lemma normalize_throws_iff_witness :
  normalizeCategorizationResult
    (JObj [(js "priority_score", JObj [(js "toString", JNum (of_Z 0))])])
  = Throw TypeError.
Proof.
  apply (normalize_throws_iff
           (JObj [(js "priority_score",
                   JObj [(js "toString", JNum (of_Z 0))])])
           TypeError).
  - intros props l H. inversion H; subst props. discriminate.
  - split; [reflexivity|]. right.
    exists [(js "priority_score", JObj [(js "toString", JNum (of_Z 0))])],
      [(js "toString", JNum (of_Z 0))], (JNum (of_Z 0)).
    repeat split.
Defined.

End Conversion.

(* ================================================================== *)
(** * More on the fence pattern *)
(* ================================================================== *)

Section MoreFence.

Lemma startsWith_split (s p : jsstring) :
  startsWith s p = true -> exists r, s = p ++ r.
Proof.
  revert s. induction p as [|a p IH]; intros s H; [exists s; reflexivity|].
  destruct s as [|b s]; [discriminate H|].
  cbn [startsWith] in H. apply andb_true_iff in H as [E H].
  apply N.eqb_eq in E. subst b.
  destruct (IH s H) as [r ->]. exists r. reflexivity.
Qed.









End MoreFence.

(* ================================================================== *)
(** * More on reply parsing *)
(* ================================================================== *)

Section MoreReplies.

Lemma fenced_in_prose (pre j post : jsstring) :
  pre ++ fenced j ++ post
  = pre ++ fence ++ (js "json" ++ [10%N] ++ j ++ [10%N]) ++ fence ++ post.
Proof. unfold fenced. rewrite <- !app_assoc. reflexivity. Qed.

Lemma plain_fence_in_prose (pre j post : jsstring) :
  pre ++ (fence ++ ([10%N] : jsstring) ++ j ++ [10%N] ++ fence) ++ post
  = pre ++ fence ++ (([10%N] : jsstring) ++ j ++ [10%N]) ++ fence ++ post.
Proof. rewrite <- !app_assoc. reflexivity. Qed.

Lemma tagged_body_closed (j : jsstring) :
  includes j fence = false ->
  includes ((js "json" ++ [10%N] ++ j ++ [10%N]) ++ js "``") fence = false.
Proof.
  intros H. rewrite <- !app_assoc.
  apply includes_newline_ticks in H.
  change (includes (js "json" ++ [10%N] ++ j ++ [10%N] ++ js "``") fence)
    with (false || (false || (false || (false || (false ||
            includes (j ++ [10%N; 96%N; 96%N]) fence))))).
  exact H.
Qed.

Lemma plain_body_closed (j : jsstring) :
  includes j fence = false ->
  includes ((([10%N] : jsstring) ++ j ++ [10%N]) ++ js "``") fence = false.
Proof.
  intros H. rewrite <- !app_assoc.
  apply includes_newline_ticks in H.
  change (includes (([10%N] : jsstring) ++ j ++ [10%N] ++ js "``") fence)
    with (false || includes (j ++ [10%N; 96%N; 96%N]) fence).
  exact H.
Qed.

(** X9: a reply that wraps its JSON in a fenced block, tagged [json] or not
    tagged, and writes prose before and after it, is parsed to the value of
    the JSON text, provided the text has no three back-ticks in a row and
    the prose before the block, with two back-ticks put after it, has none
    either: it holds no three back-ticks in a row and does not end in a
    back-tick. *)
Theorem fenced_json_in_prose (pre j post : jsstring) (v : value) :
  parse j = Normal v ->
  includes j fence = false ->
  includes (pre ++ js "``") fence = false ->
  parseJsonResponse (pre ++ fenced j ++ post) = v
  /\ parseJsonResponse
       (pre ++ (fence ++ ([10%N] : jsstring) ++ j ++ [10%N] ++ fence)
        ++ post) = v.
Proof.
  intros P J Pre. unfold parseJsonResponse.
  rewrite fenced_in_prose, plain_fence_in_prose.
  rewrite (jsonStr_block pre _ post Pre (tagged_body_closed j J)).
  rewrite (jsonStr_block pre _ post Pre (plain_body_closed j J)).
  repeat match goal with
         | |- context [trim (untagged ?x)] =>
             replace (trim (untagged x)) with (trim j)
               by (symmetry; exact (trim_padded j 10%N 10%N eq_refl eq_refl))
         end.
  rewrite (parse_trim j v P). split; reflexivity.
Qed.

Lemma fenced_json_in_prose_witness :
  parseJsonResponse
    (js "Here you go: " ++ fenced (js "{}") ++ js " Anything else?")
  = JObj [].
Proof.
  apply (fenced_json_in_prose (js "Here you go: ") (js "{}")
           (js " Anything else?") (JObj [])); reflexivity.
Defined.

(** A run of letters that does not start with [t], [f] or [n] is no JSON
    literal, whatever follows it. *)
Lemma lexFrom_bad_literal (c : code_unit) (text s : jsstring)
  (toks : list token) :
  ((c =? 116) || (c =? 102) || (c =? 110))%N = false ->
  lexFrom (toks, InLiteral (c :: text)) s = None.
Proof.
  intros B. apply orb_false_iff in B as [B N]. apply orb_false_iff in B as [T F].
  assert (L : forall text', literal (c :: text') = None).
  { intros text'. unfold literal.
    change (js "null") with (110%N :: js "ull").
    change (js "true") with (116%N :: js "rue").
    change (js "false") with (102%N :: js "alse").
    cbn [JsString.eqb]. rewrite N, T, F. reflexivity. }
  revert text. induction s as [|d s IH]; intros text.
  - cbn [lexFrom finish]. rewrite L. reflexivity.
  - cbn [lexFrom lexStep]. destruct (isLetter d).
    + change ((c :: text) ++ [d]) with (c :: (text ++ [d])). apply IH.
    + cbn [finish]. rewrite L. reflexivity.
Qed.

Lemma parse_bad_start (c : code_unit) (t : jsstring) :
  canBeginJson c = false -> parse (c :: t) = Throw SyntaxError.
Proof.
  unfold canBeginJson, parse, lex. cbn [lexFrom lexStep].
  destruct (start [] c) as [[toks m]|] eqn:S; [|reflexivity].
  destruct m; try discriminate. intros B.
  assert (E : toks = [] /\ text = [c]).
  { unfold start in S. destruct (isJsonSpace c); [discriminate S|].
    destruct (punctuation c); [discriminate S|].
    destruct (c =? 34)%N; [discriminate S|].
    destruct (isDigit c || (c =? 45)%N); [discriminate S|].
    destruct (isLetter c); [|discriminate S].
    inversion S. auto. }
  destruct E as [-> ->]. rewrite (lexFrom_bad_literal c [] t [] B).
  reflexivity.
Qed.

(** X10: when the text handed to [JSON.parse] starts with a character that
    cannot begin a JSON text (prose in front of bare JSON, or a fence with a
    language tag other than [json]), the reply gives the defaults
    [Unknown], [Neutral], 3 whatever JSON it holds further on. *)
Theorem prose_first_reply_defaults message reply (c : code_unit)
  (t : jsstring) :
  jsonStr (trim reply) = c :: t ->
  canBeginJson c = false ->
  parseJsonResponse (trim reply) = JObj []
  /\ categorizeMessage message (Fulfilled reply) = defaults.
Proof.
  intros E B.
  assert (P : parseJsonResponse (trim reply) = JObj []).
  { unfold parseJsonResponse. rewrite E, (parse_bad_start c t B).
    reflexivity. }
  split; [exact P|].
  unfold categorizeMessage, remoteAttempt. rewrite P.
  rewrite normalize_empty_object. reflexivity.
Qed.

Lemma prose_first_reply_defaults_witness :
  categorizeMessage (js "I want a refund")
    (Fulfilled (js "Here is the JSON: {" ++ quoted (js "category")
                ++ js ": " ++ quoted (js "Billing Issue") ++ js "}"))
  = defaults
  /\ categorizeMessage (js "I want a refund")
       (Fulfilled (js "```javascript {" ++ quoted (js "category")
                   ++ js ": " ++ quoted (js "Billing Issue") ++ js "} ```"))
     = defaults.
Proof.
  split.
  - apply (prose_first_reply_defaults (js "I want a refund")
             (js "Here is the JSON: {" ++ quoted (js "category")
              ++ js ": " ++ quoted (js "Billing Issue") ++ js "}")
             72%N
             (js "ere is the JSON: {" ++ quoted (js "category")
              ++ js ": " ++ quoted (js "Billing Issue") ++ js "}"));
      reflexivity.
  - apply (prose_first_reply_defaults (js "I want a refund")
             (js "```javascript {" ++ quoted (js "category")
              ++ js ": " ++ quoted (js "Billing Issue") ++ js "} ```")
             106%N
             (js "avascript {" ++ quoted (js "category")
              ++ js ": " ++ quoted (js "Billing Issue") ++ js "}"));
      reflexivity.
Defined.

End MoreReplies.

(* ================================================================== *)
(** * The anger indicators *)
(* ================================================================== *)

Section Anger.

Lemma count_bang_cons c (s : jsstring) :
  (count_unit 33%N s <= count_unit 33%N (c :: s))%nat.
Proof.
  unfold count_unit. cbn [filter]. destruct (33 =? c)%N; cbn; lia.
Qed.

Lemma includes_bangs (s : jsstring) :
  includes s (js "!!!") = true -> (3 <= count_unit 33%N s)%nat.
Proof.
  induction s as [|c r IH]; intros H; [discriminate H|].
  cbn [includes] in H. apply orb_true_iff in H as [H|H].
  - destruct (startsWith_split _ _ H) as [t E]. rewrite E.
    unfold count_unit. cbn. lia.
  - apply IH in H. pose proof (count_bang_cons c r). lia.
Qed.

(** X11: the indicator of three exclamation marks never decides: a message
    that holds it has at least two exclamation marks, which is enough for
    anger.  [isAngry] is the search for the ten anger words or two
    exclamation marks. *)
Theorem bangs_indicator_redundant (message : jsstring) :
  isAngry message
  = existsb (fun w => includes (toLowerCase message) w) angryWords
    || (2 <=? count_unit 33%N message)%nat.
Proof.
  unfold isAngry.
  destruct (includes (toLowerCase message) (js "!!!")) eqn:B.
  - apply includes_bangs in B. rewrite count_bang_lower in B.
    replace (2 <=? count_unit 33%N message)%nat with true
      by (symmetry; apply Nat.leb_le; lia).
    rewrite !orb_true_r. reflexivity.
  - unfold angryIndicators, angryWords. cbn [map existsb].
    rewrite B. cbn [orb]. reflexivity.
Qed.

Lemma startsWith_prefix (s p q : jsstring) :
  startsWith s (p ++ q) = true -> startsWith s p = true.
Proof.
  revert s. induction p as [|a p IH]; intros s H; [reflexivity|].
  destruct s as [|b s]; [discriminate H|].
  cbn [app startsWith] in *. apply andb_true_iff in H as [E H].
  rewrite E, (IH s H). reflexivity.
Qed.

Lemma includes_prefix (s p q : jsstring) :
  includes s (p ++ q) = true -> includes s p = true.
Proof.
  induction s as [|c r IH]; cbn [includes]; intros H.
  - rewrite orb_false_r in *. apply (startsWith_prefix _ _ _ H).
  - apply orb_true_iff in H as [H|H].
    + rewrite (startsWith_prefix _ _ _ H). reflexivity.
    + rewrite (IH H). apply orb_true_r.
Qed.

(** X12: the keyword [thanks] of the gratitude rule never decides, as a
    text that holds it holds [thank]: the rule looks for [thank] or
    [appreciate]. *)
Theorem thanks_keyword_redundant (lowerMessage : jsstring) :
  includesAny lowerMessage gratitudeWords
  = includes lowerMessage (js "thank")
    || includes lowerMessage (js "appreciate").
Proof.
  unfold includesAny, gratitudeWords. cbn [existsb]. rewrite orb_false_r.
  destruct (includes lowerMessage (js "thanks")) eqn:T; [|reflexivity].
  change (js "thanks") with (js "thank" ++ js "s") in T.
  rewrite (includes_prefix _ _ _ T). reflexivity.
Qed.

End Anger.
